(** * pyIslam: Hijri calendar, prayer times and Qiblah bearing

    A shallow embedding of [pyIslam/hijri.py], [pyIslam/praytimes.py] and
    [pyIslam/qiblah.py].

    Conventions of the embedding.
    - Python [int] is [Z]; Python [float] is idealised as a real number [R]
      (no rounding), so every statement about decimal hours or degrees below
      is a statement about the exact value of the expression the code
      evaluates.
    - A Python exception is a value of [exn]; a function that can raise
      returns a [result].
    - [pyIslam/baselib.py] is imported by the three modules but is not part
      of the sources at hand; what is taken from it is marked as such. *)

From Stdlib Require Import ZArith List String Bool Lia.
From Stdlib Require Import Reals Machin Lra Psatz DecimalString.
Import ListNotations.

(** ** Exceptions and results *)

Inductive exn : Type :=
| ValueError (msg : string)
| TypeError (msg : string)
| PlainException (msg : string)
| IndexError
| ZeroDivisionError
| MathDomainError.

Inductive result (A : Type) : Type :=
| Ok (a : A)
| Raise (e : exn).

Arguments Ok {A} a.
Arguments Raise {A} e.

Definition bind {A B : Type} (r : result A) (k : A -> result B) : result B :=
  match r with
  | Ok a => k a
  | Raise e => Raise e
  end.

Notation "'let*' x ':=' r 'in' k" := (bind r (fun x => k))
  (at level 10, x name, r at level 100, k at level 200).

Definition is_ok {A : Type} (r : result A) : bool :=
  match r with Ok _ => true | Raise _ => false end.

(** The two errors of float arithmetic: a division by zero and a square
    root below zero. *)
Definition is_arithmetic (e : exn) : bool :=
  match e with
  | ZeroDivisionError | MathDomainError => true
  | _ => false
  end.


(** [x in range(lo, hi)] for an integer [x]. *)
Definition in_range (x lo hi : Z) : bool := ((lo <=? x) && (x <? hi))%Z.

(** ** hijri.py *)

Module Hijri.

Local Open Scope Z_scope.

(** Modelled from the spec: [baselib.hijri_to_julian] is not among the
    sources.  The spec describes it as the closed-form arithmetic formula
    over (year, month, day) of the standard 30-year arithmetic Hijri cycle,
    with no correction applied; this is that formula, with the epoch
    1948440 of the arithmetic (civil) calendar and floor divisions. *)
Definition hijri_to_julian (year month day : Z) : Z :=
  (11 * year + 3) / 30 + 354 * year + 30 * month
  - (month - 1) / 2 + day + 1948440 - 385.

(** Modelled from the spec: the integer part of [baselib.julian_to_hijri],
    which is not among the sources.  The spec describes it as the inverse
    transform that derives the Hijri triple by modular arithmetic on the
    30-year cycle (10631 days); this is the standard integer algorithm,
    applied to the day number obtained after the correction was added and
    the sum truncated. *)
Definition hijri_of_day_number (jdn : Z) : Z * Z * Z :=
  let l := jdn - 1948440 + 10632 in
  let n := Z.quot (l - 1) 10631 in
  let l := l - 10631 * n + 354 in
  let j := Z.quot (10985 - l) 5316 * Z.quot (50 * l) 17719
           + Z.quot l 5670 * Z.quot (43 * l) 15238 in
  let l := l - Z.quot (30 - j) 15 * Z.quot (17719 * j) 50
           - Z.quot j 16 * Z.quot (15238 * j) 43 + 29 in
  let month := Z.quot (24 * l) 709 in
  let day := l - Z.quot (709 * month) 24 in
  let year := 30 * n + j - 30 in
  (year, month, day).

(** [julian_to_hijri(jd, correction_val)] on an integral Julian Day. *)
Definition julian_to_hijri_Z (jd correction_val : Z) : Z * Z * Z :=
  hijri_of_day_number (jd + correction_val).

Record HijriDate : Type := mkHijriDate {
  year : Z;
  month : Z;
  day : Z;
  _julian : Z
}.

(** [HijriDate.__init__].  The arguments are Python ints, so the three
    [isinstance] tests succeed and the [TypeError] branches are not
    reached.  The third test is written on [month] in the source. *)
Definition HijriDate_init (y m d : Z) : result HijriDate :=
  if y <? 0 then Raise (ValueError "year must be positive")
  else if negb (in_range m 1 13)
  then Raise (ValueError "month should be bitween 1 and 12")
  else if negb (in_range m 1 31)
  then Raise (ValueError "day should be bitween 1 and 30")
  else Ok (mkHijriDate y m d (hijri_to_julian y m d)).

(** [HijriDate.from_julian] on an integral Julian Day. *)
Definition from_julian (jd correction_val : Z) : result HijriDate :=
  let '(y, m, d) := julian_to_hijri_Z jd correction_val in
  HijriDate_init y m d.

(** [next_date] and [is_last]. *)
Definition next_date (h : HijriDate) : result HijriDate :=
  from_julian (_julian h + 1) 0.

Definition is_last (h : HijriDate) : result bool :=
  let* n := next_date h in Ok (negb (month h =? month n)).

End Hijri.

(** *** The arithmetic calendar behind the two conversions *)

Module HijriFacts.

Import Hijri.
Local Open Scope Z_scope.

(** Leap years of the 30-year cycle (years 2, 5, 7, 10, 13, 16, 18, 21, 24,
    26 and 29 of each cycle) and the length of a month: odd months have 30
    days, even months 29, and the twelfth month 30 in a leap year. *)
Definition is_leap (y : Z) : bool := (11 * y + 14) mod 30 <? 11.

Definition month_length (y m : Z) : Z :=
  if Z.odd m then 30
  else if (m =? 12) && is_leap y then 30 else 29.

Definition round_trips (y m d : Z) : bool :=
  let '(y', m', d') := julian_to_hijri_Z (hijri_to_julian y m d) 0 in
  (y' =? y) && (m' =? m) && (d' =? d).

(** The integers [lo, lo + 1, ..., lo + n - 1]. *)
Definition Z_range (lo : Z) (n : nat) : list Z :=
  map (fun i => lo + Z.of_nat i) (seq 0 n).

Definition cycle_round_trips : bool :=
  forallb (fun y =>
    forallb (fun m =>
      forallb (fun d => round_trips y m d)
              (Z_range 1 (Z.to_nat (month_length y m))))
      (Z_range 1 12))
    (Z_range 0 30).

End HijriFacts.

(** ** Python arithmetic on floats, idealised *)

Module PyFloat.

Local Open Scope R_scope.

Definition Rltb (a b : R) : bool := if Rlt_dec a b then true else false.
Definition Reqb (a b : R) : bool := if Req_dec_T a b then true else false.

(** [a / b]: raises [ZeroDivisionError] when the divisor is zero. *)
Definition py_div (a b : R) : result R :=
  if Req_dec_T b 0 then Raise ZeroDivisionError else Ok (a / b).

(** [math.sqrt]: raises [ValueError: math domain error] below zero. *)
Definition py_sqrt (x : R) : result R :=
  if Rlt_dec x 0 then Raise MathDomainError else Ok (sqrt x).

(** [int(x)]: truncation toward zero. *)
Definition py_int (x : R) : Z :=
  if Rle_dec 0 x then Int_part x else (- Int_part (- x))%Z.

(** [x in range(lo, lo + n)] for a float [x]: equality with one of the
    integers of the range. *)
Definition float_in_range (x : R) (lo : Z) (n : nat) : bool :=
  existsb (fun k => Reqb x (IZR k)) (HijriFacts.Z_range lo n).

(** [str(n)] for an integer. *)
Definition py_str (n : Z) : string := NilEmpty.string_of_int (Z.to_int n).

(** Modelled from the spec: [baselib.dcos] and [baselib.dsin], the shared
    trigonometric helpers, are not among the sources; they are the cosine
    and the sine of an angle given in degrees. *)
Definition dcos (deg : R) : R := cos (deg * PI / 180).
Definition dsin (deg : R) : R := sin (deg * PI / 180).

End PyFloat.

(** ** praytimes.py *)

Module Praytimes.

Import Hijri PyFloat.
Local Open Scope string_scope.
Local Open Scope R_scope.

Record FixedTime : Type := mkFixedTime {
  _all_year_time : R;
  _ramadan_time : R
}.

Definition ramadan_time_hr (ft : FixedTime) : R := _ramadan_time ft / 60.0.
Definition all_year_time_hr (ft : FixedTime) : R := _all_year_time ft / 60.0.

(** A Fajr or Isha parameter: a depression angle in degrees, or a
    [FixedTime] object. *)
Inductive angle_param : Type :=
| Angle (a : R)
| Fixed (ft : FixedTime).

Record MethodInfo : Type := mkMethodInfo {
  id : Z;
  organizations : list string;
  mi_fajr_angle : angle_param;
  mi_ishaa_angle : angle_param;
  applicability : list string
}.

Definition LIST_FAJR_ISHA_METHODS : list MethodInfo :=
  [ mkMethodInfo 1 ["University of Islamic Sciences, Karachi (UISK)";
                    "Ministry of Religious Affaires, Tunisia";
                    "Grande Mosquée de Paris, France"]
                 (Angle 18.0) (Angle 18.0) [];
    mkMethodInfo 2 ["Muslim World League (MWL)";
                    "Ministry of Religious Affaires and Awqaf, Algeria";
                    "Presidency of Religious Affairs, Turkey"]
                 (Angle 18.0) (Angle 17.0) [];
    mkMethodInfo 3 ["Egyptian General Authority of Survey (EGAS)"]
                 (Angle 19.5) (Angle 17.5) [];
    mkMethodInfo 4 ["Umm al-Qura University, Makkah (UMU)"]
                 (Angle 18.5) (Fixed (mkFixedTime 90 120)) [];
    mkMethodInfo 5 ["Islamic Society of North America (ISNA)";
                    "France - Angle 15°"]
                 (Angle 15.0) (Angle 15.0) [];
    mkMethodInfo 6 ["French Muslims (ex-UOIF)"]
                 (Angle 12.0) (Angle 12.0) [];
    mkMethodInfo 7 ["Islamic Religious Council of Signapore (MUIS)";
                    "Department of Islamic Advancements of Malaysia (JAKIM)";
                    "Ministry of Religious Affairs of Indonesia (KEMENAG)"]
                 (Angle 20.0) (Angle 18.0) [];
    mkMethodInfo 8 ["Spiritual Administration of Muslims of Russia"]
                 (Angle 16.0) (Angle 15.0) [];
    mkMethodInfo 9 ["Fixed Ishaa Time Interval, 90min"]
                 (Angle 19.5) (Fixed (mkFixedTime 90 90)) [] ].

(** [t[i]] on a tuple: a negative index counts from the end; anything
    outside [-len, len) raises [IndexError]. *)
Definition py_getitem {A : Type} (t : list A) (i : Z) : result A :=
  let n := Z.of_nat (List.length t) in
  let k := if (i <? 0)%Z then (i + n)%Z else i in
  if ((0 <=? k) && (k <? n))%Z
  then match nth_error t (Z.to_nat k) with
       | Some a => Ok a
       | None => Raise IndexError
       end
  else Raise IndexError.

(** The [angle_ref] argument of [PrayerConf]: an int, a [MethodInfo], or a
    value of another type. *)
Inductive angle_ref_arg : Type :=
| RefInt (n : Z)
| RefMethod (m : MethodInfo)
| RefOther.

Record PrayerConf : Type := mkPrayerConf {
  longitude : R;
  latitude : R;
  timezone : R;
  sherook_angle : R;
  maghreb_angle : R;
  asr_madhab : Z;
  middle_longitude : R;
  longitude_difference : R;
  summer_time : bool;
  fajr_angle : angle_param;
  ishaa_angle : angle_param
}.

(** [x + 90.0 if type(x) is not FixedTime else x] *)
Definition shift_angle (p : angle_param) : angle_param :=
  match p with
  | Angle a => Angle (a + 90.0)
  | Fixed ft => Fixed ft
  end.

(** [PrayerConf.__init__] *)
Definition PrayerConf_init (longitude latitude timezone : R)
    (angle_ref : angle_ref_arg) (asr_madhab : Z) (enable_summer_time : bool)
  : result PrayerConf :=
  let madhab := if (asr_madhab =? 2)%Z then asr_madhab else 1%Z in
  let middle := timezone * 15 in
  let difference := (middle - longitude) / 15 in
  let* method :=
    match angle_ref with
    | RefInt n =>
        py_getitem LIST_FAJR_ISHA_METHODS
          (if (n <=? Z.of_nat (List.length LIST_FAJR_ISHA_METHODS))%Z
           then (n - 1)%Z else 2%Z)
    | RefMethod m => Ok m
    | RefOther =>
        Raise (TypeError
                 "angle_ref must be an instance form type int or MethodInfo")
    end in
  Ok (mkPrayerConf longitude latitude timezone 90.83333 90.83333 madhab
        middle difference enable_summer_time
        (shift_angle (mi_fajr_angle method))
        (shift_angle (mi_ishaa_angle method))).

(** [datetime.date] *)
Record date : Type := mkDate { d_year : Z; d_month : Z; d_day : Z }.

Record Prayer : Type := mkPrayer {
  _conf : PrayerConf;
  _date : date;
  _jd : R;
  _correction_val : R;
  _dohr_time : R;
  _fajr_time : R;
  _sherook_time : R;
  _asr_time : R;
  _maghreb_time : R;
  _ishaa_time : R;
  _midnight : R;
  _second_third_of_night : R;
  _last_third_of_night : R
}.

(** [baselib.julian_to_hijri(jd, correction_val)] on floats: the sum is
    truncated by [int] and handed to the integer algorithm. *)
Definition julian_to_hijri (jd correction_val : R) : Z * Z * Z :=
  hijri_of_day_number (py_int (jd + correction_val)).

Section WithBaselib.

(** [baselib.equation_of_time] and [baselib.gregorian_to_julian] are not
    among the sources and no statement below depends on what they compute:
    they are parameters. *)
Variable equation_of_time : R -> R.
Variable gregorian_to_julian : date -> R.

(** [HijriDate.get_hijri] (hijri.py) *)
Definition get_hijri (dat : date) (correction_val : R) : result HijriDate :=
  let '(y, m, d) := julian_to_hijri (gregorian_to_julian dat) correction_val in
  HijriDate_init y m d.

(** [Prayer._sun_declination] *)
Definition _sun_declination (jd : R) : result R :=
  let n := jd - 2451544.5 in
  let epsilon := 23.44 - 0.0000004 * n in
  let l := 280.466 + 0.9856474 * n in
  let g := 357.528 + 0.9856003 * n in
  let lamda := l + 1.915 * dsin g + 0.02 * dsin (2 * g) in
  let x := dsin epsilon * dsin lamda in
  let* r := py_sqrt (- x * x + 1) in
  let* q := py_div x r in
  Ok ((180 / (4 * atan 1)) * atan q).

(** [Prayer._get_asr_angle] *)
Definition _get_asr_angle (conf : PrayerConf) (jd : R) : result R :=
  let* delta := _sun_declination jd in
  let x := dsin (latitude conf) * dsin delta
           + dcos (latitude conf) * dcos delta in
  let* r := py_sqrt (- x * x + 1) in
  let* q := py_div x r in
  let a := atan q in
  let* c := py_div 1 (tan a) in
  let x := IZR (asr_madhab conf) + c in
  Ok (90 - (180 / PI) * (atan x + 2 * atan 1)).

(** [dcos(angle)] where [angle] may be a [FixedTime] object, which has no
    multiplication with a float. *)
Definition dcos_param (p : angle_param) : result R :=
  match p with
  | Angle a => Ok (dcos a)
  | Fixed _ =>
      Raise (TypeError "unsupported operand type(s) for *: FixedTime and float")
  end.

(** [Prayer._get_time_for_angle] *)
Definition _get_time_for_angle (conf : PrayerConf) (jd : R)
    (angle : angle_param) : result R :=
  let* delta := _sun_declination jd in
  let* ca := dcos_param angle in
  let* s := py_div (ca - dsin (latitude conf) * dsin delta)
                   (dcos (latitude conf) * dcos delta) in
  let* r := py_sqrt (- s * s + 1) in
  let* q := py_div (- s) r in
  Ok ((180 / PI * (atan q + PI / 2)) / 15).

Definition _get_dohr_time (conf : PrayerConf) (jd : R) : R :=
  let ld := longitude_difference conf in
  let time_eq := equation_of_time jd in
  12 + ld + time_eq / 60.

Definition _get_fajr_time (conf : PrayerConf) (jd dohr : R) : result R :=
  let* t := _get_time_for_angle conf jd (fajr_angle conf) in Ok (dohr - t).

Definition _get_sherook_time (conf : PrayerConf) (jd dohr : R) : result R :=
  let* t := _get_time_for_angle conf jd (Angle (sherook_angle conf)) in
  Ok (dohr - t).

Definition _get_asr_time (conf : PrayerConf) (jd dohr : R) : result R :=
  let* a := _get_asr_angle conf jd in
  let* t := _get_time_for_angle conf jd (Angle a) in
  Ok (dohr + t).

Definition _get_maghreb_time (conf : PrayerConf) (jd dohr : R) : result R :=
  let* t := _get_time_for_angle conf jd (Angle (maghreb_angle conf)) in
  Ok (dohr + t).

Definition _get_ishaa_time (conf : PrayerConf) (dat : date)
    (jd correction_val dohr : R) : result R :=
  match ishaa_angle conf with
  | Fixed ft =>
      let* h := get_hijri dat correction_val in
      let is_ramadan := (month h =? 9)%Z in
      let time_after_maghreb :=
        if is_ramadan then ramadan_time_hr ft else all_year_time_hr ft in
      let* t := _get_time_for_angle conf jd (Angle (maghreb_angle conf)) in
      Ok (time_after_maghreb + dohr + t)
  | Angle a =>
      let* t := _get_time_for_angle conf jd (Angle a) in
      Ok (dohr + t)
  end.

Definition _get_midnight (maghreb fajr : R) : R :=
  maghreb + ((24.0 - (maghreb - fajr)) / 2.0).

Definition _get_second_third_of_night (maghreb fajr : R) : R :=
  maghreb + ((24.0 - (maghreb - fajr)) / 3.0).

Definition _get_last_third_of_night (maghreb fajr : R) : R :=
  maghreb + (2 * (24.0 - (maghreb - fajr)) / 3.0).

(** The part of [Prayer.__init__] that follows the test of the correction
    value: the times, in the order of the source. *)
Definition compute_times (conf : PrayerConf) (dat : date)
    (jd correction_val : R) : result Prayer :=
  let dohr := _get_dohr_time conf jd in
  let* fajr := _get_fajr_time conf jd dohr in
  let* sherook := _get_sherook_time conf jd dohr in
  let* asr := _get_asr_time conf jd dohr in
  let* maghreb := _get_maghreb_time conf jd dohr in
  let* ishaa := _get_ishaa_time conf dat jd correction_val dohr in
  Ok (mkPrayer conf dat jd correction_val dohr fajr sherook asr maghreb ishaa
        (_get_midnight maghreb fajr)
        (_get_second_third_of_night maghreb fajr)
        (_get_last_third_of_night maghreb fajr)).

(** [Prayer.__init__] *)
Definition Prayer_init (conf : PrayerConf) (dat : date) (correction_val : R)
  : result Prayer :=
  let jd := gregorian_to_julian dat in
  if negb (float_in_range correction_val (-2) 5)
  then Raise (PlainException "Correction value exception")
  else compute_times conf dat jd correction_val.

End WithBaselib.

End Praytimes.

(** ** qiblah.py *)

Module Qiblah.

Import PyFloat.
Local Open Scope string_scope.
Local Open Scope R_scope.

(** The object handed to [Qiblah]: anything with a longitude and a
    latitude. *)
Record Location : Type := mkLocation { longitude : R; latitude : R }.

Record Qiblah : Type := mkQiblah {
  _conf : Location;
  _qiblah_dir : R
}.

Definition MAKKAH_LATI : R := 21.42249.
Definition MAKKAH_LONG : R := 39.826174.

(** [Qiblah.__init__] *)
Definition Qiblah_init (conf : Location) : result Qiblah :=
  let lamda := MAKKAH_LONG - longitude conf in
  let num := dcos MAKKAH_LATI * dsin lamda in
  let denom := dsin MAKKAH_LATI * dcos (latitude conf)
               - dcos MAKKAH_LATI * dsin (latitude conf) * dcos lamda in
  let* q := py_div num denom in
  let dir := (180 / PI) * atan q in
  let dir := if Rltb denom 0 then 180 + dir else dir in
  let dir := if Rltb 0 denom && Rltb num 0 then 360 + dir else dir in
  Ok (mkQiblah conf dir).

Definition direction (self : Qiblah) : R := _qiblah_dir self.

(** [Qiblah.sixty]: returns the string and the object as the method leaves
    it. *)
Definition sixty (self : Qiblah) : string * Qiblah :=
  let d0 := _qiblah_dir self in
  let six := (py_str (py_int d0) ++ "Â°")%string in
  let d1 := (d0 - IZR (py_int d0)) * 60 in
  let six := (six ++ " " ++ py_str (py_int d1) ++ "'")%string in
  let d2 := (d1 - IZR (py_int d1)) * 60 in
  let six := (six ++ " " ++ py_str (py_int d2) ++ "''")%string in
  let d3 := (d2 - IZR (py_int d2)) * 60 in
  (six, mkQiblah (_conf self) d3).

End Qiblah.

(** *** Auxiliary notions for the statements on praytimes.py *)

Module PraytimesFacts.

Import Hijri PyFloat Praytimes.
Local Open Scope Z_scope.

(** The registry index the constructor uses for an integer selector. *)
Definition selector_index (n : Z) : Z :=
  if n <=? Z.of_nat (List.length LIST_FAJR_ISHA_METHODS) then n - 1 else 2.

Definition selected_id (n : Z) : result Z :=
  let* m := py_getitem LIST_FAJR_ISHA_METHODS (selector_index n) in Ok (id m).

Local Open Scope R_scope.

(** The quantities [_sun_declination] goes through: the obliquity
    [epsilon], the ecliptic longitude [lamda], the sine [x] of the
    declination, and the declination in degrees. *)
Definition obliquity (jd : R) : R := 23.44 - 0.0000004 * (jd - 2451544.5).

Definition ecliptic_longitude (jd : R) : R :=
  let n := jd - 2451544.5 in
  let g := 357.528 + 0.9856003 * n in
  280.466 + 0.9856474 * n + 1.915 * dsin g + 0.02 * dsin (2 * g).

Definition decl_sin (jd : R) : R :=
  dsin (obliquity jd) * dsin (ecliptic_longitude jd).

Definition declination (jd : R) : R := 180 / PI * asin (decl_sin jd).

(** The argument [s] of [_get_time_for_angle] for a target whose cosine is
    [ca], at latitude [lat] and declination [delta] (degrees). *)
Definition hour_arg (lat delta ca : R) : R :=
  (ca - dsin lat * dsin delta) / (dcos lat * dcos delta).

(** The value [_get_time_for_angle] returns for the argument [s]. *)
Definition hour_angle (s : R) : R := 180 / PI * acos s / 15.

(** The argument [x] of [_get_asr_angle], and the shadow term added to the
    madhab. *)
Definition noon_sin (lat delta : R) : R :=
  dsin lat * dsin delta + dcos lat * dcos delta.

Definition asr_shadow (lat delta : R) (madhab : Z) : R :=
  IZR madhab + 1 / tan (asin (noon_sin lat delta)).

(** A sufficient condition for the sun to reach the zenith distance [a]
    (degrees) at the latitude of [conf] on the day [jd]. *)
Definition sun_reaches (conf : PrayerConf) (jd a : R) : Prop :=
  Rabs (latitude conf) + obliquity jd < a
  /\ a < 180 - (Rabs (latitude conf) + obliquity jd).

(** [_get_time_for_angle] returns for a target of cosine [ca] exactly when
    [reached] holds, and then returns [time_to]. *)
Definition reached (lat jd ca : R) : Prop :=
  -1 < decl_sin jd < 1
  /\ dcos lat * dcos (declination jd) <> 0
  /\ -1 < hour_arg lat (declination jd) ca < 1.

Definition time_to (lat jd ca : R) : R :=
  hour_angle (hour_arg lat (declination jd) ca).

(** The cosine of the Asr angle. *)
Definition asr_cos (lat jd : R) (madhab : Z) : R :=
  cos (atan (asr_shadow lat (declination jd) madhab)).

(** The parameters of the registry methods: depression angles between
    the sunrise angle and 90 degrees, fixed offsets that are positive. *)
Definition usual_param (p : angle_param) : Prop :=
  match p with
  | Angle a => 0.83333 < a <= 90
  | Fixed ft => 0 < _all_year_time ft /\ 0 < _ramadan_time ft
  end.

Definition usual_method (m : MethodInfo) : Prop :=
  (exists a, mi_fajr_angle m = Angle a /\ 0.83333 < a <= 90)
  /\ usual_param (mi_ishaa_angle m).

(** The order of the day the times are expected to keep. *)
Definition day_order (p : Prayer) : Prop :=
  _fajr_time p < _sherook_time p
  /\ _sherook_time p < _dohr_time p
  /\ _dohr_time p < _asr_time p
  /\ _asr_time p < _maghreb_time p
  /\ _maghreb_time p < _ishaa_time p.

(** The day 2000-01-01, Julian Day 2451544.5. *)
Definition J2000 : R := 2451544.5.

(** Modelled from the spec: [baselib.gregorian_to_julian] is not among the
    sources; the spec describes it as the standard proleptic-Gregorian
    algorithm on year, month and day, with 2000-01-01 at Julian Day
    2451544.5.  It only instantiates the parameter of the same name in the
    closed instances below. *)
Definition sample_gregorian_to_julian (dat : date) : R :=
  let a := ((14 - d_month dat) / 12)%Z in
  let y := (d_year dat + 4800 - a)%Z in
  let m := (d_month dat + 12 * a - 3)%Z in
  IZR (d_day dat + (153 * m + 2) / 5 + 365 * y + y / 4 - y / 100 + y / 400
       - 32045) - 0.5.

(** A stand-in for the parameter [equation_of_time] in the closed
    instances below: the equation of time shifts all the times of a day by
    the same amount, and no statement depends on its value. *)
Definition sample_equation_of_time (jd : R) : R := 0.

Definition new_year_2000 : date := mkDate 2000 1 1.

(** [PrayerConf(0, 0, 0)]: on the equator, with the default method 2. *)
Definition equator_conf : PrayerConf :=
  mkPrayerConf 0 0 0 90.83333 90.83333 1 (0 * 15) ((0 * 15 - 0) / 15) false
    (Angle (18.0 + 90.0)) (Angle (17.0 + 90.0)).

End PraytimesFacts.

(** *** Auxiliary notions for the statements on qiblah.py *)

Module QiblahFacts.

Import PyFloat Qiblah.
Local Open Scope R_scope.

(** The numerator and the denominator of the bearing formula. *)
Definition num (conf : Location) : R :=
  dcos MAKKAH_LATI * dsin (MAKKAH_LONG - longitude conf).

Definition denom (conf : Location) : R :=
  dsin MAKKAH_LATI * dcos (latitude conf)
  - dcos MAKKAH_LATI * dsin (latitude conf)
    * dcos (MAKKAH_LONG - longitude conf).

End QiblahFacts.

(** ** hijri.py: rendering *)

Module HijriFormat.

Import Hijri PyFloat Praytimes.
Local Open Scope string_scope.
Local Open Scope Z_scope.

Fixpoint zeros (k : nat) : string :=
  match k with
  | O => ""
  | S k' => "0" ++ zeros k'
  end.

(** ['%0<width>d' % n]: the sign, then zeros up to the width, then the
    digits. *)
Definition py_format_d (width : nat) (n : Z) : string :=
  let digits := py_str (Z.abs n) in
  let sign := if n <? 0 then "-" else "" in
  sign ++ zeros (width - String.length sign - String.length digits) ++ digits.

(** The local table [month_name] of [format]: a dict with the keys 1 and
    2. *)
Definition month_name : list (Z * list string) :=
  [ (1, ["محرم"; "صفر"; "ربيع الأول"; "ربيع الثاني"; "جمادى الأولى";
         "جمادى الثانية"; "رجب"; "شعبان"; "رمضان"; "شوال"; "ذو القعدة";
         "ذو الحجة"]);
    (2, ["Moharram"; "Safar"; "Rabie-I"; "Rabie-II"; "Jumada-I";
         "Jumada-II"; "Rajab"; "Shaban"; "Ramadan"; "Shawwal"; "Delqada";
         "Delhijja"]) ].

(** [d[k]] on a dict.  A missing key is a [KeyError] in Python; it is
    rendered here as a plain exception of that name. *)
Fixpoint dict_get {A : Type} (d : list (Z * A)) (k : Z) : result A :=
  match d with
  | [] => Raise (PlainException "KeyError")
  | (k', a) :: d' => if k' =? k then Ok a else dict_get d' k
  end.

(** [HijriDate.format].  The argument is a Python int, so the [TypeError]
    branch is not reached. *)
Definition format (self : HijriDate) (lang : Z) : result string :=
  if negb (in_range lang 0 3)
  then Raise (ValueError "lang should be bitween 0 and 2")
  else if lang =? 0
  then Ok (py_format_d 2 (day self) ++ "-" ++ py_format_d 2 (month self)
           ++ "-" ++ py_format_d 4 (year self))
  else
    let* names := dict_get month_name lang in
    let* name := py_getitem names (month self - 1) in
    Ok (py_str (day self) ++ " " ++ name ++ " " ++ py_str (year self)).

(** Reading a numeric rendering back: the digits at the positions of the
    pattern dd-mm-yyyy. *)
Definition digits_value (s : string) : option Z :=
  option_map Z.of_int (NilEmpty.int_of_string s).

Definition parse_numeric (s : string) : option Z * option Z * option Z :=
  (digits_value (substring 0 2 s),
   digits_value (substring 3 2 s),
   digits_value (substring 6 4 s)).

Definition pads_back (width : nat) (n : Z) : bool :=
  (String.length (py_format_d width n) =? width)%nat
  && match digits_value (py_format_d width n) with
     | Some v => v =? n
     | None => false
     end.

End HijriFormat.

(** ** praytimes.py: the wall-clock accessors *)

Module PrayerClock.

Import PyFloat Praytimes.
Local Open Scope string_scope.
Local Open Scope R_scope.

















(** All the decimal-hour values of [q] are those of [p] plus [k]. *)
Definition shifted_by (k : R) (p q : Prayer) : Prop :=
  _dohr_time q = _dohr_time p + k
  /\ _fajr_time q = _fajr_time p + k
  /\ _sherook_time q = _sherook_time p + k
  /\ _asr_time q = _asr_time p + k
  /\ _maghreb_time q = _maghreb_time p + k
  /\ _ishaa_time q = _ishaa_time p + k
  /\ _midnight q = _midnight p + k
  /\ _second_third_of_night q = _second_third_of_night p + k
  /\ _last_third_of_night q = _last_third_of_night p + k.

End PrayerClock.

Section HijriProofs.

Import Hijri HijriFacts.
Local Open Scope Z_scope.

Lemma in_range_spec x lo hi : in_range x lo hi = true <-> lo <= x < hi.
Proof. unfold in_range. rewrite andb_true_iff, Z.leb_le, Z.ltb_lt. tauto. Qed.

Lemma in_Z_range x lo n : In x (Z_range lo n) <-> lo <= x < lo + Z.of_nat n.
Proof.
  unfold Z_range. rewrite in_map_iff. split.
  - intros (i & <- & Hi). apply in_seq in Hi. lia.
  - intros H. exists (Z.to_nat (x - lo)). split; [lia|].
    apply in_seq. lia.
Qed.

(** What [HijriDate.__init__] really tests: the year and the month. *)
Lemma HijriDate_init_ok_iff y m d :
  is_ok (HijriDate_init y m d) = true <-> 0 <= y /\ 1 <= m <= 12.
Proof.
  unfold HijriDate_init.
  destruct (y <? 0) eqn:Hy; [apply Z.ltb_lt in Hy | apply Z.ltb_ge in Hy].
  - simpl. split; [discriminate | lia].
  - destruct (in_range m 1 13) eqn:Hm; simpl.
    + apply in_range_spec in Hm.
      assert (Hm' : in_range m 1 31 = true) by (apply in_range_spec; lia).
      rewrite Hm'. simpl. split; [lia | reflexivity].
    + split; [discriminate|]. intros [_ H].
      assert (in_range m 1 13 = true) by (apply in_range_spec; lia).
      congruence.
Qed.

Lemma HijriDate_init_stores y m d h :
  HijriDate_init y m d = Ok h ->
  year h = y /\ month h = m /\ day h = d /\ _julian h = hijri_to_julian y m d.
Proof.
  unfold HijriDate_init.
  destruct (y <? 0); [discriminate|].
  destruct (negb (in_range m 1 13)); [discriminate|].
  destruct (negb (in_range m 1 31)); [discriminate|].
  intros [= <-]. simpl. auto.
Qed.

(** Thirty years are 10631 days. *)
Lemma hijri_to_julian_cycle y m d q :
  hijri_to_julian (y + 30 * q) m d = hijri_to_julian y m d + 10631 * q.
Proof.
  unfold hijri_to_julian.
  replace (11 * (y + 30 * q) + 3) with (11 * y + 3 + (11 * q) * 30) by ring.
  rewrite Z.div_add by lia. ring.
Qed.

Lemma hijri_of_day_number_cycle jdn q :
  1948440 - 10632 + 1 <= jdn -> 0 <= q ->
  hijri_of_day_number (jdn + 10631 * q)
  = let '(y, m, d) := hijri_of_day_number jdn in (y + 30 * q, m, d).
Proof.
  intros Hj Hq. unfold hijri_of_day_number. cbv zeta.
  assert (Hn : Z.quot (jdn + 10631 * q - 1948440 + 10632 - 1) 10631
               = Z.quot (jdn - 1948440 + 10632 - 1) 10631 + q).
  { rewrite !Z.quot_div_nonneg by lia.
    replace (jdn + 10631 * q - 1948440 + 10632 - 1)
      with (jdn - 1948440 + 10632 - 1 + q * 10631) by ring.
    apply Z.div_add. lia. }
  rewrite Hn.
  set (n := Z.quot (jdn - 1948440 + 10632 - 1) 10631).
  replace (jdn + 10631 * q - 1948440 + 10632 - 10631 * (n + q) + 354)
    with (jdn - 1948440 + 10632 - 10631 * n + 354) by ring.
  f_equal. f_equal. ring.
Qed.

Lemma is_leap_cycle y q : is_leap (y + 30 * q) = is_leap y.
Proof.
  unfold is_leap.
  replace (11 * (y + 30 * q) + 14) with (11 * y + 14 + (11 * q) * 30) by ring.
  now rewrite Z.mod_add by lia.
Qed.

Lemma month_length_cycle y q m : month_length (y + 30 * q) m = month_length y m.
Proof. unfold month_length. now rewrite is_leap_cycle. Qed.

Lemma month_length_bounds y m : 29 <= month_length y m <= 30.
Proof.
  unfold month_length. destruct (Z.odd m); [lia|].
  destruct ((m =? 12) && is_leap y); lia.
Qed.

Lemma cycle_round_trips_true : cycle_round_trips = true.
Proof. vm_compute. reflexivity. Qed.

Lemma round_trips_in_cycle y m d :
  0 <= y < 30 -> 1 <= m <= 12 -> 1 <= d <= month_length y m ->
  julian_to_hijri_Z (hijri_to_julian y m d) 0 = (y, m, d).
Proof.
  intros Hy Hm Hd.
  pose proof cycle_round_trips_true as H. unfold cycle_round_trips in H.
  rewrite forallb_forall in H.
  specialize (H y). rewrite in_Z_range in H. specialize (H ltac:(simpl; lia)).
  rewrite forallb_forall in H.
  specialize (H m). rewrite in_Z_range in H. specialize (H ltac:(simpl; lia)).
  rewrite forallb_forall in H.
  specialize (H d). rewrite in_Z_range in H.
  pose proof (month_length_bounds y m).
  specialize (H ltac:(lia)).
  unfold round_trips in H.
  destruct (julian_to_hijri_Z (hijri_to_julian y m d) 0) as [[y' m'] d'].
  apply andb_true_iff in H as [H Hd']. apply andb_true_iff in H as [Hy' Hm'].
  apply Z.eqb_eq in Hy', Hm', Hd'. congruence.
Qed.

Lemma hijri_to_julian_lower y m d :
  0 <= y -> 1 <= m -> 1 <= d -> 1948086 <= hijri_to_julian y m d.
Proof.
  intros Hy Hm Hd. unfold hijri_to_julian.
  assert (0 <= (11 * y + 3) / 30) by (apply Z.div_pos; lia).
  assert ((m - 1) / 2 <= m - 1) by (apply Z.div_le_upper_bound; lia).
  lia.
Qed.

(** C1, at the input (1444, 5, 31): the day is outside 1..30, so a
    validation error is expected, but the third range test of
    [HijriDate.__init__] is written on the month; the date is built and the
    day 31 is stored. *)
Theorem C1_day_is_not_validated :
  HijriDate_init 1444 5 31
  = Ok (mkHijriDate 1444 5 31 (hijri_to_julian 1444 5 31))
  /\ in_range 31 1 31 = false.
Proof. split; reflexivity. Qed.

(** C2 as stated fails: the Hijri date (1, 2, 30) is in the declared
    ranges and is accepted by the constructor, but the second month has 29
    days, so its Julian Day is that of (1, 3, 1), which is what the way
    back returns. *)
Lemma C2_counterexample :
  exists h,
    HijriDate_init 1 2 30 = Ok h
    /\ julian_to_hijri_Z (_julian h) 0 = (1, 3, 1)
    /\ julian_to_hijri_Z (_julian h) 0 <> (year h, month h, day h).
Proof.
  eexists. split; [reflexivity|]. split; [reflexivity|].
  vm_compute. discriminate.
Qed.

(** Whatever the way back, it cannot return both (1, 2, 30) and (1, 3, 1):
    no function inverts [hijri_to_julian] on the whole declared range. *)
Lemma no_inverse_on_declared_range :
  ~ exists f : Z -> Z * Z * Z,
      forall y m d, 0 <= y -> 1 <= m <= 12 -> 1 <= d <= 30 ->
                    f (hijri_to_julian y m d) = (y, m, d).
Proof.
  intros [f Hf].
  pose proof (Hf 1 2 30 ltac:(lia) ltac:(lia) ltac:(lia)) as H1.
  pose proof (Hf 1 3 1 ltac:(lia) ltac:(lia) ltac:(lia)) as H2.
  replace (hijri_to_julian 1 3 1) with (hijri_to_julian 1 2 30) in H2
    by reflexivity.
  rewrite H1 in H2. discriminate H2.
Qed.

Lemma julian_to_hijri_Z_round_trip y m d :
  0 <= y -> 1 <= m <= 12 -> 1 <= d <= month_length y m ->
  julian_to_hijri_Z (hijri_to_julian y m d) 0 = (y, m, d).
Proof.
  intros Hy Hm Hd.
  pose proof (Z.div_mod y 30 ltac:(lia)) as Hdm.
  pose proof (Z.mod_pos_bound y 30 ltac:(lia)) as Hr.
  assert (Hq : 0 <= y / 30) by (apply Z.div_pos; lia).
  set (r := y mod 30) in *. set (q := y / 30) in *.
  assert (Hy' : y = r + 30 * q) by lia.
  rewrite Hy' in Hd |- *. rewrite month_length_cycle in Hd.
  rewrite hijri_to_julian_cycle.
  unfold julian_to_hijri_Z. rewrite Z.add_0_r.
  rewrite hijri_of_day_number_cycle;
    [| pose proof (hijri_to_julian_lower r m d); lia | lia].
  pose proof (round_trips_in_cycle r m d Hr Hm Hd) as Hrt.
  unfold julian_to_hijri_Z in Hrt. rewrite Z.add_0_r in Hrt.
  rewrite Hrt. reflexivity.
Qed.

(** C2, amended: for every year that is not negative, every month in
    1..12 and every day between 1 and the length of that month in the
    arithmetic calendar, the Hijri date is constructed, its Julian Day
    converted back with correction 0 is (year, month, day), and
    [from_julian] rebuilds the same date. *)
Theorem C2_round_trip_within_month y m d :
  0 <= y -> 1 <= m <= 12 -> 1 <= d <= month_length y m ->
  exists h,
    HijriDate_init y m d = Ok h
    /\ julian_to_hijri_Z (_julian h) 0 = (year h, month h, day h)
    /\ (year h, month h, day h) = (y, m, d)
    /\ from_julian (_julian h) 0 = Ok h.
Proof.
  intros Hy Hm Hd.
  pose proof (julian_to_hijri_Z_round_trip y m d Hy Hm Hd) as Hrt.
  destruct (HijriDate_init y m d) as [h|e] eqn:Hh.
  - exists h. pose proof (HijriDate_init_stores _ _ _ _ Hh) as (-> & -> & -> & E).
    rewrite E. repeat split; try assumption; try reflexivity.
    unfold from_julian. rewrite Hrt. exact Hh.
  - pose proof (proj2 (HijriDate_init_ok_iff y m d) (conj Hy Hm)) as Hok.
    rewrite Hh in Hok. discriminate Hok.
Qed.

Lemma C2_round_trip_within_month_witness :
  (0 <= 1444 /\ 1 <= 9 <= 12 /\ 1 <= 1 <= month_length 1444 9)
  /\ exists h,
       HijriDate_init 1444 9 1 = Ok h
       /\ julian_to_hijri_Z (_julian h) 0 = (year h, month h, day h)
       /\ (year h, month h, day h) = (1444, 9, 1)
       /\ from_julian (_julian h) 0 = Ok h.
Proof.
  assert (H : 0 <= 1444 /\ 1 <= 9 <= 12 /\ 1 <= 1 <= month_length 1444 9)
    by (vm_compute; repeat split; discriminate).
  split; [exact H|].
  destruct H as (Hy & Hm & Hd).
  exact (C2_round_trip_within_month 1444 9 1 Hy Hm Hd).
Defined.

End HijriProofs.

(** ** Facts on the idealised float operations *)

Section PyFloatFacts.

Import PyFloat.
Local Open Scope R_scope.

Lemma Rltb_true a b : Rltb a b = true <-> a < b.
Proof. unfold Rltb. destruct (Rlt_dec a b); split; auto; discriminate. Qed.

Lemma Rltb_false a b : Rltb a b = false <-> b <= a.
Proof.
  unfold Rltb. destruct (Rlt_dec a b); split; auto; try discriminate; lra.
Qed.

Lemma Reqb_true a b : Reqb a b = true <-> a = b.
Proof. unfold Reqb. destruct (Req_dec_T a b); split; auto; discriminate. Qed.

Lemma Int_part_IZR z : Int_part (IZR z) = z.
Proof. symmetry. apply Int_part_spec. lra. Qed.

Lemma py_int_IZR z : py_int (IZR z) = z.
Proof.
  unfold py_int. destruct (Rle_dec 0 (IZR z)).
  - apply Int_part_IZR.
  - rewrite <- opp_IZR, Int_part_IZR. lia.
Qed.

(** [int] of a non-negative float is its floor. *)
Lemma py_int_floor x z : IZR z <= x < IZR z + 1 -> (0 <= z)%Z -> py_int x = z.
Proof.
  intros Hx Hz. unfold py_int.
  assert (0 <= IZR z) by (apply IZR_le in Hz; exact Hz).
  destruct (Rle_dec 0 x); [|lra].
  symmetry. apply Int_part_spec. lra.
Qed.

Lemma py_div_ok a b : b <> 0 -> py_div a b = Ok (a / b).
Proof. intros H. unfold py_div. destruct (Req_dec_T b 0); [contradiction|reflexivity]. Qed.

Lemma py_div_zero a : py_div a 0 = Raise ZeroDivisionError.
Proof. unfold py_div. destruct (Req_dec_T 0 0); [reflexivity|contradiction]. Qed.

Lemma py_sqrt_ok x : 0 <= x -> py_sqrt x = Ok (sqrt x).
Proof. intros H. unfold py_sqrt. destruct (Rlt_dec x 0); [lra|reflexivity]. Qed.

Lemma py_sqrt_neg x : x < 0 -> py_sqrt x = Raise MathDomainError.
Proof. intros H. unfold py_sqrt. destruct (Rlt_dec x 0); [reflexivity|lra]. Qed.

Lemma float_in_range_spec x lo n :
  float_in_range x lo n = true
  <-> exists k : Z, (lo <= k < lo + Z.of_nat n)%Z /\ x = IZR k.
Proof.
  unfold float_in_range. rewrite existsb_exists. split.
  - intros (k & Hin & Hk). apply in_Z_range in Hin. apply Reqb_true in Hk.
    exists k. auto.
  - intros (k & Hin & Hk). exists k. split.
    + now apply in_Z_range.
    + now apply Reqb_true.
Qed.

Lemma dsin_0 : dsin 0 = 0.
Proof. unfold dsin. replace (0 * PI / 180) with 0 by lra. apply sin_0. Qed.

Lemma dcos_0 : dcos 0 = 1.
Proof. unfold dcos. replace (0 * PI / 180) with 0 by lra. apply cos_0. Qed.

Lemma dcos_90 : dcos 90 = 0.
Proof. unfold dcos. replace (90 * PI / 180) with (PI / 2) by lra. apply cos_PI2. Qed.

Lemma dsin_90 : dsin 90 = 1.
Proof. unfold dsin. replace (90 * PI / 180) with (PI / 2) by lra. apply sin_PI2. Qed.

(** Inside (-90, 90) degrees the cosine is positive. *)
Lemma dcos_pos d : -90 < d < 90 -> 0 < dcos d.
Proof.
  intros H. unfold dcos. pose proof PI_RGT_0.
  apply cos_gt_0; nra.
Qed.

End PyFloatFacts.

(** ** PrayerConf: the method selector *)

Section SelectorProofs.

Import HijriFacts PyFloat Praytimes PraytimesFacts.
Local Open Scope Z_scope.

(** Selectors above 9 fall back to the method of id 3. *)
Lemma selector_above lon lat tz n madhab st :
  9 < n ->
  exists conf, PrayerConf_init lon lat tz (RefInt n) madhab st = Ok conf
               /\ fajr_angle conf = Angle (19.5 + 90.0)%R
               /\ ishaa_angle conf = Angle (17.5 + 90.0)%R.
Proof.
  intros Hn. unfold PrayerConf_init.
  replace (n <=? Z.of_nat (List.length LIST_FAJR_ISHA_METHODS)) with false
    by (symmetry; apply Z.leb_gt; simpl; lia).
  eexists. split; [reflexivity|]. split; reflexivity.
Qed.

(** Selectors from -8 to 9 pick a method, 0 and the negative ones from the
    end of the registry. *)
Lemma selector_in_reach n :
  -8 <= n <= 9 ->
  selected_id n = Ok (if n <=? 0 then n + 9 else n).
Proof.
  intros Hn.
  assert (H : In n (Z_range (-8) 18)) by (apply in_Z_range; simpl; lia).
  unfold Z_range in H. simpl in H.
  repeat (destruct H as [<- | H]; [reflexivity|]). destruct H.
Qed.

(** C10, at the selector -9: no out-of-range error is expected for any
    integer selector, but the guard of the constructor tests the upper end
    only; the index is -10 on a registry of 9 entries and the tuple access
    raises [IndexError]. *)
Theorem C10_selector_minus_9_raises lon lat tz madhab st :
  PrayerConf_init lon lat tz (RefInt (-9)) madhab st = Raise IndexError.
Proof. reflexivity. Qed.

(** The same holds for every selector below -8. *)
Lemma selector_below lon lat tz n madhab st :
  n < -8 -> PrayerConf_init lon lat tz (RefInt n) madhab st = Raise IndexError.
Proof.
  intros Hn. unfold PrayerConf_init.
  replace (n <=? Z.of_nat (List.length LIST_FAJR_ISHA_METHODS)) with true
    by (symmetry; apply Z.leb_le; simpl; lia).
  unfold py_getitem.
  replace (n - 1 <? 0) with true by (symmetry; apply Z.ltb_lt; lia).
  replace (0 <=? n - 1 + Z.of_nat (List.length LIST_FAJR_ISHA_METHODS))
    with false by (symmetry; apply Z.leb_gt; simpl; lia).
  reflexivity.
Qed.

End SelectorProofs.

(** ** Qiblah *)

Section QiblahProofs.

Import PyFloat Qiblah QiblahFacts.
Local Open Scope R_scope.

Lemma atan_degrees_bound q : -90 < 180 / PI * atan q < 90.
Proof.
  pose proof PI_RGT_0 as HPI. pose proof (atan_bound q) as [Hl Hu].
  assert (E : 180 / PI * (PI / 2) = 90) by (field; lra).
  assert (Hk : 0 < 180 / PI) by (apply Rdiv_lt_0_compat; lra).
  split; nra.
Qed.

Lemma atan_neg q : q < 0 -> atan q < 0.
Proof. intros H. rewrite <- atan_0. now apply atan_increasing. Qed.

Lemma atan_nonneg q : 0 <= q -> 0 <= atan q.
Proof.
  intros [H | <-].
  - left. rewrite <- atan_0. now apply atan_increasing.
  - rewrite atan_0. lra.
Qed.

(** With a non-zero denominator the object is built, the two corrections
    are those of the quadrants, and the bearing is in [0, 360). *)
Lemma Qiblah_init_nonzero conf :
  denom conf <> 0 ->
  exists q,
    Qiblah_init conf = Ok q
    /\ direction q
       = 180 / PI * atan (num conf / denom conf)
         + (if Rltb (denom conf) 0 then 180
            else if Rltb (num conf) 0 then 360 else 0)
    /\ 0 <= direction q < 360.
Proof.
  intros Hd. unfold Qiblah_init. fold (num conf) (denom conf).
  rewrite py_div_ok by exact Hd. cbn [bind].
  eexists. split; [reflexivity|]. unfold direction. cbn [_qiblah_dir].
  pose proof (atan_degrees_bound (num conf / denom conf)) as Hb.
  pose proof PI_RGT_0 as HPI.
  assert (Hk : 0 < 180 / PI) by (apply Rdiv_lt_0_compat; lra).
  destruct (Rltb (denom conf) 0) eqn:Hneg.
  - apply Rltb_true in Hneg.
    replace (Rltb 0 (denom conf)) with false
      by (symmetry; apply Rltb_false; lra).
    cbn [andb]. split; [ring | lra].
  - apply Rltb_false in Hneg.
    assert (Hpos : 0 < denom conf) by lra.
    replace (Rltb 0 (denom conf)) with true
      by (symmetry; apply Rltb_true; lra).
    cbn [andb].
    destruct (Rltb (num conf) 0) eqn:Hn.
    + apply Rltb_true in Hn. split; [ring|].
      assert (num conf / denom conf < 0).
      { unfold Rdiv. apply Rinv_0_lt_compat in Hpos. nra. }
      pose proof (atan_neg _ H). nra.
    + apply Rltb_false in Hn. split; [ring|].
      assert (0 <= num conf / denom conf).
      { unfold Rdiv. apply Rinv_0_lt_compat in Hpos. nra. }
      pose proof (atan_nonneg _ H). nra.
Qed.

Lemma Qiblah_init_zero conf :
  denom conf = 0 -> Qiblah_init conf = Raise ZeroDivisionError.
Proof.
  intros Hd. unfold Qiblah_init. fold (num conf) (denom conf).
  rewrite Hd, py_div_zero. reflexivity.
Qed.

(** C5, for the observer at the reference point itself (longitude
    39.826174, latitude 21.42249): a bearing in [0, 360) is expected for
    every observer, but numerator and denominator are both zero there, the
    two quadrant tests do not cover a zero denominator, and the division
    raises [ZeroDivisionError]: no bearing is returned. *)
Theorem C5_observer_at_makkah_raises :
  Qiblah_init (mkLocation MAKKAH_LONG MAKKAH_LATI) = Raise ZeroDivisionError.
Proof.
  apply Qiblah_init_zero. unfold denom. cbn [longitude latitude].
  replace (MAKKAH_LONG - MAKKAH_LONG) with 0 by ring.
  rewrite dcos_0. ring.
Qed.

Lemma dcos_makkah_pos : 0 < dcos MAKKAH_LATI.
Proof. apply dcos_pos. unfold MAKKAH_LATI. lra. Qed.

(** Due north of the reference point, at the pole. *)
Lemma Qiblah_init_north_pole :
  Qiblah_init (mkLocation MAKKAH_LONG 90)
  = Ok (mkQiblah (mkLocation MAKKAH_LONG 90) 180).
Proof.
  pose proof dcos_makkah_pos as Hc.
  assert (Hn : num (mkLocation MAKKAH_LONG 90) = 0).
  { unfold num. cbn [longitude].
    replace (MAKKAH_LONG - MAKKAH_LONG) with 0 by ring.
    rewrite dsin_0. ring. }
  assert (Hd : denom (mkLocation MAKKAH_LONG 90) = - dcos MAKKAH_LATI).
  { unfold denom. cbn [longitude latitude].
    replace (MAKKAH_LONG - MAKKAH_LONG) with 0 by ring.
    rewrite dcos_0, dcos_90, dsin_90. ring. }
  unfold Qiblah_init.
  fold (num (mkLocation MAKKAH_LONG 90)) (denom (mkLocation MAKKAH_LONG 90)).
  rewrite Hn, Hd. rewrite py_div_ok by lra. cbn [bind].
  replace (0 / - dcos MAKKAH_LATI) with 0 by (field; lra).
  rewrite atan_0.
  replace (Rltb (- dcos MAKKAH_LATI) 0) with true
    by (symmetry; apply Rltb_true; lra).
  replace (Rltb 0 (- dcos MAKKAH_LATI)) with false
    by (symmetry; apply Rltb_false; lra).
  cbn [andb]. do 2 f_equal. ring.
Qed.

Lemma sixty_of_180 conf :
  sixty (mkQiblah conf 180) = ("180Â° 0' 0''"%string, mkQiblah conf 0).
Proof.
  unfold sixty. cbn [_qiblah_dir _conf].
  rewrite (py_int_IZR 180).
  replace ((180 - 180) * 60) with 0 by ring.
  rewrite (py_int_IZR 0).
  replace ((0 - 0) * 60) with 0 by ring.
  rewrite (py_int_IZR 0).
  replace ((0 - 0) * 60) with 0 by ring.
  reflexivity.
Qed.

(** C9, for the observer at longitude 39.826174 and latitude 90:
    [direction()] is expected to return the same bearing before and after
    [sixty()], but [sixty()] uses the stored bearing as its working
    variable; the bearing is 180 before the call and 0 after it. *)
Theorem C9_sixty_overwrites_bearing :
  exists q,
    Qiblah_init (mkLocation MAKKAH_LONG 90) = Ok q
    /\ direction q = 180
    /\ direction (snd (sixty q)) = 0
    /\ direction (snd (sixty q)) <> direction q.
Proof.
  eexists. split; [apply Qiblah_init_north_pole|].
  rewrite sixty_of_180. cbn [snd direction _qiblah_dir].
  repeat split; lra.
Qed.

(** What [sixty()] leaves in the object, in general: three times the
    fractional part scaled by 60. *)
Lemma sixty_state q :
  let f := fun d => (d - IZR (py_int d)) * 60 in
  direction (snd (sixty q)) = f (f (f (direction q))).
Proof. reflexivity. Qed.

End QiblahProofs.

(** ** Prayer times: the trigonometry *)

Section TrigFacts.

Import PyFloat Praytimes PraytimesFacts.
Local Open Scope R_scope.

Lemma Rabs_le_between a b : Rabs a <= b -> - b <= a <= b.
Proof. unfold Rabs. destruct (Rcase_abs a); lra. Qed.

Lemma rad_180_PI a : 180 / PI * a * PI / 180 = a.
Proof. pose proof PI_RGT_0. field. lra. Qed.

(** The pattern [atan(y / sqrt(-x * x + 1))] of the three functions: it
    goes through when [-1 < x < 1]. *)
Lemma sqrt_form_ok {A : Type} x y (k : R -> result A) :
  -1 < x < 1 ->
  (let* r := py_sqrt (- x * x + 1) in let* q := py_div y r in k q)
  = k (y / sqrt (1 - x²)).
Proof.
  intros Hx. unfold Rsqr.
  assert (Hp : 0 < 1 - x * x) by nra.
  replace (- x * x + 1) with (1 - x * x) by ring.
  rewrite py_sqrt_ok by lra. cbn [bind].
  rewrite py_div_ok; [reflexivity|].
  apply Rgt_not_eq, sqrt_lt_R0, Hp.
Qed.

(** Outside of it it raises: a domain error beyond 1, a division by zero
    at 1 and -1. *)
Lemma sqrt_form_fails {A : Type} x y (k : R -> result A) :
  ~ (-1 < x < 1) ->
  (let* r := py_sqrt (- x * x + 1) in let* q := py_div y r in k q)
  = Raise (if Rlt_dec (- x * x + 1) 0 then MathDomainError
           else ZeroDivisionError).
Proof.
  intros Hx. destruct (Rlt_dec (- x * x + 1) 0) as [Hn | Hn].
  - rewrite py_sqrt_neg by exact Hn. reflexivity.
  - assert (E : - x * x + 1 = 0) by nra.
    rewrite E, py_sqrt_ok by lra. cbn [bind].
    rewrite sqrt_0, py_div_zero. reflexivity.
Qed.

Lemma acos_decreasing x y : -1 <= x -> x < y -> y <= 1 -> acos y < acos x.
Proof.
  intros Hx Hxy Hy.
  pose proof (acos_bound x) as [? ?]. pose proof (acos_bound y) as [? ?].
  apply cos_decreasing_0; try assumption.
  rewrite !cos_acos by lra. exact Hxy.
Qed.

Lemma hour_angle_decreasing x y :
  -1 <= x -> x < y -> y <= 1 -> hour_angle y < hour_angle x.
Proof.
  intros Hx Hxy Hy. pose proof PI_RGT_0 as HPI.
  pose proof (acos_decreasing x y Hx Hxy Hy) as H.
  unfold hour_angle.
  assert (Hk : 0 < 180 / PI) by (apply Rdiv_lt_0_compat; lra).
  nra.
Qed.

Lemma hour_angle_bounds s : -1 < s < 1 -> 0 < hour_angle s < 12.
Proof.
  intros Hs. pose proof PI_RGT_0 as HPI.
  pose proof (acos_bound_lt s Hs) as [Hl Hu]. unfold hour_angle.
  assert (Hk : 0 < 180 / PI) by (apply Rdiv_lt_0_compat; lra).
  assert (E : 180 / PI * PI / 15 = 12) by (field; lra).
  split; [nra|]. rewrite <- E.
  unfold Rdiv at 1 3. apply Rmult_lt_compat_r; [lra|].
  apply Rmult_lt_compat_l; assumption.
Qed.

(** The cosine decreases with the distance to 0 up to PI. *)
Lemma cos_lt_abs u v : Rabs u < v -> v <= PI -> cos v < cos u.
Proof.
  intros Hu Hv.
  assert (E : cos u = cos (Rabs u)).
  { unfold Rabs. destruct (Rcase_abs u); [now rewrite cos_neg | reflexivity]. }
  rewrite E. pose proof (Rabs_pos u).
  apply cos_decreasing_1; lra.
Qed.

Lemma cos_le_abs u v : Rabs u <= v -> v <= PI -> cos v <= cos u.
Proof.
  intros [Hu | Hu] Hv; [left; now apply cos_lt_abs|].
  rewrite <- Hu. unfold Rabs. destruct (Rcase_abs u); [rewrite cos_neg|]; lra.
Qed.

Lemma asin_abs_le x b :
  -1 <= x <= 1 -> 0 <= b <= PI / 2 -> Rabs x <= sin b -> Rabs (asin x) <= b.
Proof.
  intros Hx Hb Hxb.
  pose proof (asin_bound x) as [Hl Hu].
  assert (Hsb : sin (- b) = - sin b) by apply sin_neg.
  assert (H1 : asin x <= b).
  { destruct (Rle_dec (asin x) b) as [|Hn]; [assumption|exfalso].
    assert (sin b < sin (asin x)) by (apply sin_increasing_1; lra).
    rewrite sin_asin in H by lra.
    pose proof (Rle_abs x). lra. }
  assert (H2 : - b <= asin x).
  { destruct (Rle_dec (- b) (asin x)) as [|Hn]; [assumption|exfalso].
    assert (sin (asin x) < sin (- b)) by (apply sin_increasing_1; lra).
    rewrite sin_asin in H by lra.
    pose proof (Rle_abs (- x)). rewrite Rabs_Ropp in H0. lra. }
  unfold Rabs. destruct (Rcase_abs (asin x)); lra.
Qed.

End TrigFacts.

Section DeclinationFacts.

Import PyFloat Praytimes PraytimesFacts.
Local Open Scope R_scope.

Lemma obliquity_range jd :
  Rabs (jd - J2000) <= 10000000 -> 19 < obliquity jd < 28.
Proof.
  unfold obliquity, J2000. intros H.
  apply Rabs_le_between in H. lra.
Qed.

Lemma dsin_obliquity_range jd :
  0 < obliquity jd < 90 -> 0 < dsin (obliquity jd) < 1.
Proof.
  intros H. pose proof PI_RGT_0 as HPI. unfold dsin. split.
  - apply sin_gt_0; nra.
  - rewrite <- sin_PI2. apply sin_increasing_1; nra.
Qed.

Lemma decl_sin_bound jd :
  0 < obliquity jd < 90 ->
  Rabs (decl_sin jd) <= dsin (obliquity jd) /\ -1 < decl_sin jd < 1.
Proof.
  intros H. pose proof (dsin_obliquity_range jd H) as [Hl Hu].
  unfold decl_sin.
  assert (Hb : Rabs (dsin (ecliptic_longitude jd)) <= 1).
  { unfold dsin. apply Rabs_le. pose proof (SIN_bound (ecliptic_longitude jd * PI / 180)). lra. }
  assert (Ha : Rabs (dsin (obliquity jd) * dsin (ecliptic_longitude jd))
               <= dsin (obliquity jd)).
  { rewrite Rabs_mult, (Rabs_pos_eq (dsin (obliquity jd))) by lra.
    pose proof (Rabs_pos (dsin (ecliptic_longitude jd))). nra. }
  split; [exact Ha|].
  apply Rabs_le_between in Ha. lra.
Qed.

(** Uniqueness of the result of [_sun_declination], when there is one. *)
Lemma sun_declination_inv jd delta :
  _sun_declination jd = Ok delta ->
  -1 < decl_sin jd < 1 /\ delta = declination jd.
Proof.
  unfold _sun_declination. cbv zeta.
  change (dsin (23.44 - 0.0000004 * (jd - 2451544.5))
          * dsin (280.466 + 0.9856474 * (jd - 2451544.5)
                  + 1.915 * dsin (357.528 + 0.9856003 * (jd - 2451544.5))
                  + 0.02 * dsin (2 * (357.528 + 0.9856003 * (jd - 2451544.5)))))
    with (decl_sin jd).
  set (x := decl_sin jd).
  destruct (Rlt_dec (-1) x) as [H1|H1]; [destruct (Rlt_dec x 1) as [H2|H2]|].
  - rewrite sqrt_form_ok by lra. intros [= <-]. split; [lra|].
    unfold declination. fold x. rewrite atan_1, asin_atan by lra.
    pose proof PI_RGT_0. f_equal. field. lra.
  - rewrite sqrt_form_fails by lra. discriminate.
  - rewrite sqrt_form_fails by lra. discriminate.
Qed.

Lemma sun_declination_ok jd :
  -1 < decl_sin jd < 1 -> _sun_declination jd = Ok (declination jd).
Proof.
  intros Hx. unfold _sun_declination. cbv zeta.
  change (dsin (23.44 - 0.0000004 * (jd - 2451544.5))
          * dsin (280.466 + 0.9856474 * (jd - 2451544.5)
                  + 1.915 * dsin (357.528 + 0.9856003 * (jd - 2451544.5))
                  + 0.02 * dsin (2 * (357.528 + 0.9856003 * (jd - 2451544.5)))))
    with (decl_sin jd).
  rewrite sqrt_form_ok by lra.
  unfold declination. rewrite atan_1, asin_atan by lra.
  pose proof PI_RGT_0. do 2 f_equal. field. lra.
Qed.

Lemma sun_declination_fails jd :
  ~ (-1 < decl_sin jd < 1) ->
  exists e, _sun_declination jd = Raise e
            /\ (e = MathDomainError \/ e = ZeroDivisionError).
Proof.
  intros Hx. unfold _sun_declination. cbv zeta.
  change (dsin (23.44 - 0.0000004 * (jd - 2451544.5))
          * dsin (280.466 + 0.9856474 * (jd - 2451544.5)
                  + 1.915 * dsin (357.528 + 0.9856003 * (jd - 2451544.5))
                  + 0.02 * dsin (2 * (357.528 + 0.9856003 * (jd - 2451544.5)))))
    with (decl_sin jd).
  rewrite sqrt_form_fails by exact Hx.
  eexists. split; [reflexivity|].
  destruct (Rlt_dec _ 0); auto.
Qed.

(** Sine and cosine of the declination. *)
Lemma declination_rad jd : declination jd * PI / 180 = asin (decl_sin jd).
Proof. unfold declination. apply rad_180_PI. Qed.

Lemma dsin_declination jd :
  -1 < decl_sin jd < 1 -> dsin (declination jd) = decl_sin jd.
Proof.
  intros H. unfold dsin. rewrite declination_rad. apply sin_asin. lra.
Qed.

Lemma dcos_declination_pos jd :
  -1 < decl_sin jd < 1 -> 0 < dcos (declination jd).
Proof.
  intros H. unfold dcos. rewrite declination_rad.
  pose proof (asin_bound_lt _ H). apply cos_gt_0; lra.
Qed.

(** The declination stays within the obliquity. *)
Lemma declination_within_obliquity jd :
  0 < obliquity jd < 90 ->
  Rabs (asin (decl_sin jd)) <= obliquity jd * PI / 180.
Proof.
  intros H. pose proof PI_RGT_0 as HPI.
  pose proof (decl_sin_bound jd H) as [Ha Hx].
  apply asin_abs_le; [lra | nra | exact Ha].
Qed.

End DeclinationFacts.

Section HourAngleFacts.

Import PyFloat Praytimes PraytimesFacts.
Local Open Scope R_scope.

Lemma hour_angle_value s :
  -1 < s < 1 ->
  180 / PI * (atan (- s / sqrt (1 - s²)) + PI / 2) / 15 = hour_angle s.
Proof.
  intros Hs. unfold hour_angle.
  replace (- s / sqrt (1 - s²)) with (- (s / sqrt (1 - s²)))
    by (unfold Rdiv; ring).
  rewrite atan_opp, <- asin_atan by exact Hs.
  rewrite acos_asin by lra. do 2 f_equal. ring.
Qed.

(** [_get_time_for_angle] returns exactly when the declination is
    computed, the denominator is not zero and [s] is strictly between -1
    and 1. *)
Lemma time_for_angle_inv conf jd a t :
  _get_time_for_angle conf jd (Angle a) = Ok t ->
  -1 < decl_sin jd < 1
  /\ dcos (latitude conf) * dcos (declination jd) <> 0
  /\ -1 < hour_arg (latitude conf) (declination jd) (dcos a) < 1
  /\ t = hour_angle (hour_arg (latitude conf) (declination jd) (dcos a)).
Proof.
  unfold _get_time_for_angle.
  destruct (_sun_declination jd) as [delta|e] eqn:E; [|discriminate].
  apply sun_declination_inv in E as [Hx ->]. cbn [bind dcos_param].
  unfold py_div at 1.
  destruct (Req_dec_T (dcos (latitude conf) * dcos (declination jd)) 0)
    as [|Hd]; [discriminate|].
  cbn [bind]. fold (hour_arg (latitude conf) (declination jd) (dcos a)).
  set (s := hour_arg (latitude conf) (declination jd) (dcos a)).
  destruct (Rlt_dec (-1) s) as [H1|H1]; [destruct (Rlt_dec s 1) as [H2|H2]|].
  - rewrite sqrt_form_ok by lra. intros [= <-].
    repeat split; try assumption; try lra.
    apply hour_angle_value. lra.
  - rewrite sqrt_form_fails by lra. discriminate.
  - rewrite sqrt_form_fails by lra. discriminate.
Qed.

Lemma time_for_angle_ok conf jd a :
  -1 < decl_sin jd < 1 ->
  dcos (latitude conf) * dcos (declination jd) <> 0 ->
  -1 < hour_arg (latitude conf) (declination jd) (dcos a) < 1 ->
  _get_time_for_angle conf jd (Angle a)
  = Ok (hour_angle (hour_arg (latitude conf) (declination jd) (dcos a))).
Proof.
  intros Hx Hd Hs. unfold _get_time_for_angle.
  rewrite sun_declination_ok by exact Hx. cbn [bind dcos_param].
  rewrite py_div_ok by exact Hd. cbn [bind].
  fold (hour_arg (latitude conf) (declination jd) (dcos a)).
  rewrite sqrt_form_ok by exact Hs.
  f_equal. apply hour_angle_value. exact Hs.
Qed.

(** When it does not return, it raises one of the two arithmetic errors. *)
Lemma time_for_angle_fails conf jd a :
  ~ (-1 < decl_sin jd < 1
     /\ dcos (latitude conf) * dcos (declination jd) <> 0
     /\ -1 < hour_arg (latitude conf) (declination jd) (dcos a) < 1) ->
  exists e, _get_time_for_angle conf jd (Angle a) = Raise e
            /\ (e = MathDomainError \/ e = ZeroDivisionError).
Proof.
  intros Hn. unfold _get_time_for_angle.
  destruct (Rlt_dec (-1) (decl_sin jd)) as [H1|H1];
    [destruct (Rlt_dec (decl_sin jd) 1) as [H2|H2]|].
  2,3: destruct (sun_declination_fails jd ltac:(lra)) as (e & -> & He);
       exists e; auto.
  rewrite sun_declination_ok by lra. cbn [bind dcos_param].
  unfold py_div at 1.
  destruct (Req_dec_T (dcos (latitude conf) * dcos (declination jd)) 0)
    as [|Hd]; [eexists; split; [reflexivity|auto]|].
  cbn [bind]. fold (hour_arg (latitude conf) (declination jd) (dcos a)).
  rewrite sqrt_form_fails by tauto.
  eexists. split; [reflexivity|]. destruct (Rlt_dec _ 0); auto.
Qed.

(** The angle [_get_asr_angle] returns has the cosine of the arctangent of
    the shadow term. *)
Lemma dcos_asr_angle x :
  dcos (90 - 180 / PI * (atan x + 2 * atan 1)) = cos (atan x).
Proof.
  unfold dcos. rewrite atan_1. pose proof PI_RGT_0.
  replace ((90 - 180 / PI * (atan x + 2 * (PI / 4))) * PI / 180)
    with (- atan x) by (field; lra).
  apply cos_neg.
Qed.

Lemma asr_angle_inv conf jd a :
  _get_asr_angle conf jd = Ok a ->
  let X := noon_sin (latitude conf) (declination jd) in
  -1 < decl_sin jd < 1 /\ -1 < X < 1 /\ X <> 0
  /\ dcos a
     = cos (atan (asr_shadow (latitude conf) (declination jd) (asr_madhab conf))).
Proof.
  unfold _get_asr_angle.
  destruct (_sun_declination jd) as [delta|e] eqn:E; [|discriminate].
  apply sun_declination_inv in E as [Hx ->]. cbn [bind]. cbv zeta.
  fold (noon_sin (latitude conf) (declination jd)).
  set (X := noon_sin (latitude conf) (declination jd)).
  destruct (Rlt_dec (-1) X) as [H1|H1]; [destruct (Rlt_dec X 1) as [H2|H2]|].
  2,3: rewrite sqrt_form_fails by lra; discriminate.
  rewrite sqrt_form_ok by lra.
  rewrite tan_atan. unfold py_div.
  destruct (Req_dec_T (X / sqrt (1 - X²)) 0) as [|Hq]; [discriminate|].
  cbn [bind]. intros [= <-].
  assert (Hw : 0 < sqrt (1 - X²)).
  { apply sqrt_lt_R0. unfold Rsqr. nra. }
  repeat split; try assumption; try lra.
  - intros HX. apply Hq. rewrite HX. unfold Rdiv. ring.
  - rewrite dcos_asr_angle. unfold asr_shadow. fold X.
    rewrite tan_asin by lra. reflexivity.
Qed.

Lemma asr_angle_ok conf jd :
  let X := noon_sin (latitude conf) (declination jd) in
  -1 < decl_sin jd < 1 -> -1 < X < 1 -> X <> 0 ->
  exists a,
    _get_asr_angle conf jd = Ok a
    /\ dcos a
       = cos (atan (asr_shadow (latitude conf) (declination jd)
                      (asr_madhab conf))).
Proof.
  intros X Hx HX HX0. unfold _get_asr_angle.
  rewrite sun_declination_ok by exact Hx. cbn [bind]. cbv zeta.
  fold (noon_sin (latitude conf) (declination jd)). fold X.
  rewrite sqrt_form_ok by lra. rewrite tan_atan.
  assert (Hw : 0 < sqrt (1 - X²)).
  { apply sqrt_lt_R0. unfold Rsqr. nra. }
  rewrite py_div_ok.
  2:{ intros Hq. apply HX0.
      replace X with (X / sqrt (1 - X²) * sqrt (1 - X²)) by (field; lra).
      rewrite Hq. ring. }
  cbn [bind]. eexists. split; [reflexivity|].
  rewrite dcos_asr_angle. unfold asr_shadow. fold X.
  rewrite tan_asin by lra. reflexivity.
Qed.

End HourAngleFacts.

Section ConstructionFacts.

Import Hijri PyFloat Praytimes PraytimesFacts.
Local Open Scope R_scope.

Variable equation_of_time : R -> R.
Variable gregorian_to_julian : date -> R.

Lemma py_getitem_In {A : Type} (t : list A) i a :
  py_getitem t i = Ok a -> In a t.
Proof.
  unfold py_getitem. destruct (_ && _)%bool; [|discriminate].
  destruct (nth_error t _) eqn:E; [|discriminate].
  intros [= <-]. eapply nth_error_In, E.
Qed.

Lemma registry_usual : Forall usual_method LIST_FAJR_ISHA_METHODS.
Proof.
  unfold LIST_FAJR_ISHA_METHODS.
  repeat constructor; cbn;
    try (eexists; split; [reflexivity|lra]); lra.
Qed.

(** What a configuration built from an integer selector looks like. *)
Lemma PrayerConf_init_registry lon lat tz n madhab st conf :
  PrayerConf_init lon lat tz (RefInt n) madhab st = Ok conf ->
  latitude conf = lat
  /\ sherook_angle conf = 90.83333
  /\ maghreb_angle conf = 90.83333
  /\ (asr_madhab conf = 1%Z \/ asr_madhab conf = 2%Z)
  /\ (exists a, fajr_angle conf = Angle a /\ 90.83333 < a <= 180)
  /\ match ishaa_angle conf with
     | Angle a => 90.83333 < a <= 180
     | Fixed ft => 0 < _all_year_time ft /\ 0 < _ramadan_time ft
     end.
Proof.
  unfold PrayerConf_init.
  destruct (py_getitem _ _) as [m|e] eqn:E; [|discriminate].
  cbn [bind]. intros [= <-]. cbn.
  apply py_getitem_In in E.
  pose proof registry_usual as HF. rewrite Forall_forall in HF.
  destruct (HF m E) as [(a & Ha & Hr) Hi].
  repeat split; try reflexivity.
  - destruct (madhab =? 2)%Z eqn:Em; [apply Z.eqb_eq in Em|]; auto.
  - rewrite Ha. cbn. eexists. split; [reflexivity|lra].
  - destruct (mi_ishaa_angle m); cbn in *; lra.
Qed.

Lemma compute_times_inv conf dat jd c p :
  compute_times equation_of_time gregorian_to_julian conf dat jd c = Ok p ->
  let dohr := _get_dohr_time equation_of_time conf jd in
  exists fajr sherook asr maghreb ishaa,
    _get_fajr_time conf jd dohr = Ok fajr
    /\ _get_sherook_time conf jd dohr = Ok sherook
    /\ _get_asr_time conf jd dohr = Ok asr
    /\ _get_maghreb_time conf jd dohr = Ok maghreb
    /\ _get_ishaa_time gregorian_to_julian conf dat jd c dohr = Ok ishaa
    /\ p = mkPrayer conf dat jd c dohr fajr sherook asr maghreb ishaa
             (_get_midnight maghreb fajr)
             (_get_second_third_of_night maghreb fajr)
             (_get_last_third_of_night maghreb fajr).
Proof.
  intros H. cbv zeta. unfold compute_times in H.
  set (dohr := _get_dohr_time equation_of_time conf jd) in *.
  destruct (_get_fajr_time conf jd dohr) as [fajr|] ; [|discriminate].
  destruct (_get_sherook_time conf jd dohr) as [sherook|]; [|discriminate].
  destruct (_get_asr_time conf jd dohr) as [asr|]; [|discriminate].
  destruct (_get_maghreb_time conf jd dohr) as [maghreb|]; [|discriminate].
  destruct (_get_ishaa_time _ conf dat jd c dohr) as [ishaa|]; [|discriminate].
  cbn [bind] in H. injection H as <-.
  exists fajr, sherook, asr, maghreb, ishaa. repeat split; reflexivity.
Qed.

Lemma Prayer_init_inv conf dat c p :
  Prayer_init equation_of_time gregorian_to_julian conf dat c = Ok p ->
  float_in_range c (-2) 5 = true
  /\ compute_times equation_of_time gregorian_to_julian conf dat
       (gregorian_to_julian dat) c = Ok p.
Proof.
  unfold Prayer_init. destruct (float_in_range c (-2) 5); cbn [negb].
  - auto.
  - discriminate.
Qed.

Lemma bind_inv {A B : Type} (r : result A) (k : A -> result B) b :
  bind r k = Ok b -> exists a, r = Ok a /\ k a = Ok b.
Proof. destruct r; [eauto | discriminate]. Qed.

Lemma dcos_decreasing a b : 0 <= a -> a < b -> b <= 180 -> dcos b < dcos a.
Proof.
  intros Ha Hab Hb. pose proof PI_RGT_0. unfold dcos.
  apply cos_decreasing_1; nra.
Qed.

Lemma dcos_lat_nonneg lat : -90 <= lat <= 90 -> 0 <= dcos lat.
Proof.
  intros H. pose proof PI_RGT_0. unfold dcos. apply cos_ge_0; nra.
Qed.

Lemma hour_arg_increasing lat delta c1 c2 :
  0 < dcos lat * dcos delta -> c1 < c2 ->
  hour_arg lat delta c1 < hour_arg lat delta c2.
Proof.
  intros HD Hc. unfold hour_arg, Rdiv.
  apply Rmult_lt_compat_r; [apply Rinv_0_lt_compat, HD | lra].
Qed.

Lemma hour_arg_lt_1 lat delta c :
  0 < dcos lat * dcos delta ->
  hour_arg lat delta c < 1 -> c < noon_sin lat delta.
Proof.
  intros HD H. unfold hour_arg in H. unfold noon_sin.
  apply (Rmult_lt_compat_r _ _ _ HD) in H.
  unfold Rdiv in H. rewrite Rmult_assoc, Rinv_l in H by lra. lra.
Qed.

Lemma cos_atan_pos x : 0 < cos (atan x).
Proof. pose proof (atan_bound x). apply cos_gt_0; lra. Qed.

End ConstructionFacts.

(** ** Prayer times: what a constructed [Prayer] holds *)

Section PrayerFacts.

Import Hijri PyFloat Praytimes PraytimesFacts.
Local Open Scope R_scope.

Variable equation_of_time : R -> R.
Variable gregorian_to_julian : date -> R.

Lemma time_for_angle_reached conf jd a t :
  _get_time_for_angle conf jd (Angle a) = Ok t ->
  reached (latitude conf) jd (dcos a) /\ t = time_to (latitude conf) jd (dcos a).
Proof.
  intros H. apply time_for_angle_inv in H as (H1 & H2 & H3 & ->).
  unfold reached, time_to. auto.
Qed.

Lemma time_for_angle_fixed conf jd ft t :
  _get_time_for_angle conf jd (Fixed ft) = Ok t -> False.
Proof.
  unfold _get_time_for_angle.
  destruct (_sun_declination jd); discriminate.
Qed.

Lemma reached_time_to conf jd a :
  reached (latitude conf) jd (dcos a) ->
  _get_time_for_angle conf jd (Angle a)
  = Ok (time_to (latitude conf) jd (dcos a)).
Proof. intros (H1 & H2 & H3). now apply time_for_angle_ok. Qed.

Lemma fajr_time_inv conf jd dohr t :
  _get_fajr_time conf jd dohr = Ok t ->
  exists a, fajr_angle conf = Angle a
            /\ reached (latitude conf) jd (dcos a)
            /\ t = dohr - time_to (latitude conf) jd (dcos a).
Proof.
  unfold _get_fajr_time. intros H.
  apply bind_inv in H as (t0 & H & [= <-]).
  destruct (fajr_angle conf) as [a|ft].
  - apply time_for_angle_reached in H as [Hr ->]. eauto.
  - now apply time_for_angle_fixed in H.
Qed.

Lemma sherook_time_inv conf jd dohr t :
  _get_sherook_time conf jd dohr = Ok t ->
  reached (latitude conf) jd (dcos (sherook_angle conf))
  /\ t = dohr - time_to (latitude conf) jd (dcos (sherook_angle conf)).
Proof.
  unfold _get_sherook_time. intros H.
  apply bind_inv in H as (t0 & H & [= <-]).
  apply time_for_angle_reached in H as [Hr ->]. auto.
Qed.

Lemma maghreb_time_inv conf jd dohr t :
  _get_maghreb_time conf jd dohr = Ok t ->
  reached (latitude conf) jd (dcos (maghreb_angle conf))
  /\ t = dohr + time_to (latitude conf) jd (dcos (maghreb_angle conf)).
Proof.
  unfold _get_maghreb_time. intros H.
  apply bind_inv in H as (t0 & H & [= <-]).
  apply time_for_angle_reached in H as [Hr ->]. auto.
Qed.

Lemma asr_time_inv conf jd dohr t :
  _get_asr_time conf jd dohr = Ok t ->
  let X := noon_sin (latitude conf) (declination jd) in
  -1 < X < 1 /\ X <> 0
  /\ reached (latitude conf) jd (asr_cos (latitude conf) jd (asr_madhab conf))
  /\ t = dohr + time_to (latitude conf) jd
                  (asr_cos (latitude conf) jd (asr_madhab conf)).
Proof.
  unfold _get_asr_time. intros H.
  apply bind_inv in H as (a & Ha & H).
  apply bind_inv in H as (t0 & H & [= <-]).
  apply asr_angle_inv in Ha as (Hx & HX & HX0 & Hc).
  apply time_for_angle_reached in H as [Hr ->].
  rewrite Hc in *. fold (asr_cos (latitude conf) jd (asr_madhab conf)) in *.
  auto.
Qed.

Lemma ishaa_time_inv conf dat jd c dohr t :
  _get_ishaa_time gregorian_to_julian conf dat jd c dohr = Ok t ->
  match ishaa_angle conf with
  | Angle a =>
      reached (latitude conf) jd (dcos a)
      /\ t = dohr + time_to (latitude conf) jd (dcos a)
  | Fixed ft =>
      exists h, get_hijri gregorian_to_julian dat c = Ok h
                /\ reached (latitude conf) jd (dcos (maghreb_angle conf))
                /\ t = (if (month h =? 9)%Z then ramadan_time_hr ft
                        else all_year_time_hr ft)
                       + dohr
                       + time_to (latitude conf) jd (dcos (maghreb_angle conf))
  end.
Proof.
  unfold _get_ishaa_time. destruct (ishaa_angle conf) as [a|ft]; intros H.
  - apply bind_inv in H as (t0 & H & [= <-]).
    apply time_for_angle_reached in H as [Hr ->]. auto.
  - apply bind_inv in H as (h & Hh & H).
    apply bind_inv in H as (t0 & H & [= <-]).
    apply time_for_angle_reached in H as [Hr ->]. eauto.
Qed.

(** At a latitude between -90 and 90, a target that is reached has a
    positive denominator. *)
Lemma reached_denominator lat jd ca :
  -90 <= lat <= 90 -> reached lat jd ca ->
  0 < dcos lat * dcos (declination jd).
Proof.
  intros Hl (Hx & Hd & _).
  pose proof (dcos_lat_nonneg lat Hl). pose proof (dcos_declination_pos jd Hx).
  destruct (Rle_lt_or_eq_dec 0 (dcos lat) H) as [Hp | He].
  - nra.
  - exfalso. apply Hd. rewrite <- He. ring.
Qed.

Lemma time_to_bounds lat jd ca : reached lat jd ca -> 0 < time_to lat jd ca < 12.
Proof. intros (_ & _ & Hs). now apply hour_angle_bounds. Qed.

(** The lower the cosine of the target, the longer the way to it. *)
Lemma time_to_decreasing lat jd c1 c2 :
  -90 <= lat <= 90 -> reached lat jd c1 -> reached lat jd c2 -> c1 < c2 ->
  time_to lat jd c2 < time_to lat jd c1.
Proof.
  intros Hl H1 H2 Hc.
  pose proof (reached_denominator lat jd c1 Hl H1) as HD.
  destruct H1 as (_ & _ & Hs1). destruct H2 as (_ & _ & Hs2).
  unfold time_to. apply hour_angle_decreasing; try lra.
  now apply hour_arg_increasing.
Qed.

(** When the Asr target is reached the sun is above the horizon at noon,
    and the shadow term is above the madhab. *)
Lemma asr_reached_noon lat jd madhab :
  -90 <= lat <= 90 ->
  -1 < noon_sin lat (declination jd) < 1 ->
  reached lat jd (asr_cos lat jd madhab) ->
  0 < noon_sin lat (declination jd)
  /\ forall m, IZR m < asr_shadow lat (declination jd) m.
Proof.
  intros Hl HX Hr.
  pose proof (reached_denominator _ _ _ Hl Hr) as HD.
  destruct Hr as (_ & _ & [_ Hs]).
  apply hour_arg_lt_1 in Hs; [|exact HD].
  pose proof (cos_atan_pos (asr_shadow lat (declination jd) madhab)) as Hc.
  unfold asr_cos in Hs.
  assert (H0 : 0 < noon_sin lat (declination jd)) by lra.
  split; [exact H0|]. intros m. unfold asr_shadow.
  rewrite tan_asin by lra.
  assert (Hw : 0 < sqrt (1 - (noon_sin lat (declination jd))²)).
  { apply sqrt_lt_R0. unfold Rsqr. nra. }
  assert (0 < 1 / (noon_sin lat (declination jd)
                   / sqrt (1 - (noon_sin lat (declination jd))²))).
  { apply Rdiv_lt_0_compat; [lra|]. apply Rdiv_lt_0_compat; assumption. }
  lra.
Qed.

Lemma asr_cos_decreasing lat jd m1 m2 :
  0 <= IZR m1 -> (m1 < m2)%Z ->
  (forall m, IZR m < asr_shadow lat (declination jd) m) ->
  asr_cos lat jd m2 < asr_cos lat jd m1.
Proof.
  intros H1 H12 Hsh. unfold asr_cos.
  pose proof (Hsh m1) as Hs1.
  assert (Hlt : asr_shadow lat (declination jd) m1
                < asr_shadow lat (declination jd) m2).
  { unfold asr_shadow. apply IZR_lt in H12. lra. }
  pose proof (atan_bound (asr_shadow lat (declination jd) m1)).
  pose proof (atan_bound (asr_shadow lat (declination jd) m2)).
  pose proof (atan_increasing _ _ Hlt).
  assert (0 < atan (asr_shadow lat (declination jd) m1)).
  { rewrite <- atan_0. apply atan_increasing. lra. }
  pose proof PI_RGT_0.
  apply cos_decreasing_1; lra.
Qed.

End PrayerFacts.

(** ** Prayer times: when the sun reaches a target *)

Section ReachFacts.

Import Hijri PyFloat Praytimes PraytimesFacts.
Local Open Scope R_scope.

Lemma Rabs_lt_between a b : Rabs a < b -> - b < a < b.
Proof. unfold Rabs. destruct (Rcase_abs a); lra. Qed.

Lemma Rabs_rad lat : Rabs (lat * PI / 180) = Rabs lat * PI / 180.
Proof.
  pose proof PI_RGT_0. unfold Rabs.
  destruct (Rcase_abs lat), (Rcase_abs (lat * PI / 180)); nra.
Qed.

(** The spherical triangle: a zenith distance [A] strictly between that
    of noon and that of midnight is reached. *)
Lemma hour_arg_range phi d A :
  Rabs phi + Rabs d < A -> A < PI - (Rabs phi + Rabs d) ->
  0 < cos phi * cos d
  /\ - (cos phi * cos d) < cos A - sin phi * sin d < cos phi * cos d.
Proof.
  intros H1 H2.
  pose proof (Rabs_pos phi) as Hp. pose proof (Rabs_pos d) as Hd.
  assert (Hphi : - (PI / 2) < phi < PI / 2) by (apply Rabs_lt_between; lra).
  assert (Hdd : - (PI / 2) < d < PI / 2) by (apply Rabs_lt_between; lra).
  assert (Hcp : 0 < cos phi) by (apply cos_gt_0; lra).
  assert (Hcd : 0 < cos d) by (apply cos_gt_0; lra).
  split; [nra|].
  assert (Hm : Rabs (phi - d) <= Rabs phi + Rabs d).
  { replace (phi - d) with (phi + - d) by ring.
    rewrite <- (Rabs_Ropp d). apply Rabs_triang. }
  pose proof (Rabs_triang phi d) as Hs.
  pose proof (cos_lt_abs (phi - d) A ltac:(lra) ltac:(lra)) as Ha.
  pose proof (cos_lt_abs (phi + d) (PI - A) ltac:(lra) ltac:(lra)) as Hb.
  rewrite cos_minus in Ha. rewrite cos_plus in Hb.
  rewrite Rtrigo_facts.cos_pi_minus in Hb. lra.
Qed.

Lemma between_div n D : 0 < D -> - D < n < D -> -1 < n / D < 1.
Proof.
  intros HD [H1 H2]. pose proof (Rinv_0_lt_compat D HD) as Hi.
  assert (E : D * / D = 1) by (apply Rinv_r; lra).
  unfold Rdiv. split; nra.
Qed.

Lemma reached_sufficient conf jd a :
  0 < obliquity jd < 90 -> sun_reaches conf jd a ->
  reached (latitude conf) jd (dcos a).
Proof.
  intros Ho [H1 H2]. pose proof PI_RGT_0 as HPI.
  pose proof (decl_sin_bound jd Ho) as [_ Hx].
  pose proof (declination_within_obliquity jd Ho) as Hd.
  pose proof (Rabs_pos (latitude conf)) as Hl.
  destruct (hour_arg_range (latitude conf * PI / 180) (asin (decl_sin jd))
              (a * PI / 180)) as [HD Hs].
  { rewrite Rabs_rad. nra. }
  { rewrite Rabs_rad. nra. }
  unfold reached, hour_arg, dcos, dsin. rewrite declination_rad.
  split; [exact Hx|]. split; [lra|].
  apply between_div; assumption.
Qed.

Lemma cos_lt_1 u : u <> 0 -> Rabs u <= PI -> cos u < 1.
Proof.
  intros Hu Hb. rewrite <- cos_0.
  assert (E : cos u = cos (Rabs u)).
  { unfold Rabs. destruct (Rcase_abs u); [now rewrite cos_neg | reflexivity]. }
  rewrite E. apply cos_lt_abs; [|exact Hb].
  rewrite Rabs_R0. apply Rabs_pos_lt, Hu.
Qed.

Lemma cos_atan_lt X x : 0 < X -> 1 < X² * (1 + x²) -> cos (atan x) < X.
Proof.
  intros HX H. rewrite cos_atan.
  assert (Hp : 0 < 1 + x²) by (unfold Rsqr; nra).
  pose proof (sqrt_lt_R0 _ Hp) as Hr.
  pose proof (sqrt_sqrt (1 + x²) ltac:(lra)) as Hrr.
  set (r := sqrt (1 + x²)) in *.
  assert (HXr : 1 < X * r).
  { unfold Rsqr in *.
    destruct (Rlt_dec 1 (X * r)) as [|Hn]; [assumption|exfalso].
    assert (H0 : 0 < X * r) by nra.
    assert (H1 : (X * r) * (X * r) <= 1) by nra.
    replace ((X * r) * (X * r)) with (X * X * (r * r)) in H1 by ring.
    rewrite Hrr in H1. lra. }
  apply (Rmult_lt_reg_r r); [exact Hr|].
  unfold Rdiv. rewrite Rmult_1_l, Rinv_l by lra. exact HXr.
Qed.

(** Away from the zenith at noon, and with the sun above the horizon all
    day round within the obliquity, the Asr target is computed and
    reached. *)
Lemma asr_sufficient conf jd :
  0 < obliquity jd < 90 ->
  Rabs (latitude conf) + obliquity jd < 90 ->
  latitude conf <> declination jd ->
  (1 <= asr_madhab conf)%Z ->
  let X := noon_sin (latitude conf) (declination jd) in
  0 < X < 1
  /\ reached (latitude conf) jd (asr_cos (latitude conf) jd (asr_madhab conf)).
Proof.
  intros Ho Hlat Hne Hm X. pose proof PI_RGT_0 as HPI.
  pose proof (decl_sin_bound jd Ho) as [_ Hx].
  pose proof (declination_within_obliquity jd Ho) as Hd.
  pose proof (Rabs_pos (latitude conf)) as Hl.
  set (phi := latitude conf * PI / 180) in *.
  set (d := asin (decl_sin jd)) in *.
  assert (Hphi : Rabs phi = Rabs (latitude conf) * PI / 180)
    by apply Rabs_rad.
  assert (Hsum : Rabs phi + Rabs d < PI / 2) by (rewrite Hphi; nra).
  pose proof (Rabs_pos phi) as Hp. pose proof (Rabs_pos d) as Hdp.
  assert (HXc : X = cos (phi - d)).
  { unfold X, noon_sin, dsin, dcos. rewrite declination_rad.
    fold phi d. rewrite cos_minus. ring. }
  assert (Hm1 : Rabs (phi - d) <= Rabs phi + Rabs d).
  { replace (phi - d) with (phi + - d) by ring.
    rewrite <- (Rabs_Ropp d). apply Rabs_triang. }
  pose proof (Rabs_triang phi d) as Hs1.
  assert (HX0 : 0 < X).
  { rewrite HXc.
    pose proof (Rabs_lt_between (phi - d) (PI / 2) ltac:(lra)).
    apply cos_gt_0; lra. }
  assert (HX1 : X < 1).
  { rewrite HXc. apply cos_lt_1; [|lra].
    intros E. apply Hne. unfold declination. fold d.
    replace d with phi by lra. unfold phi. field. lra. }
  split; [lra|].
  assert (Hcs : 0 < cos (phi + d)).
  { pose proof (Rabs_lt_between (phi + d) (PI / 2) ltac:(lra)).
    apply cos_gt_0; lra. }
  assert (Hcp : 0 < cos phi).
  { pose proof (Rabs_lt_between phi (PI / 2) ltac:(lra)).
    apply cos_gt_0; lra. }
  assert (Hcd : 0 < cos d).
  { pose proof (Rabs_lt_between d (PI / 2) ltac:(lra)).
    apply cos_gt_0; lra. }
  (* the cosine of the Asr angle is below the sine of the noon altitude *)
  assert (Hw : 0 < sqrt (1 - X²)) by (apply sqrt_lt_R0; unfold Rsqr; nra).
  pose proof (sqrt_sqrt (1 - X²) ltac:(unfold Rsqr; nra)) as Hww.
  assert (Hca : asr_cos (latitude conf) jd (asr_madhab conf) < X).
  { unfold asr_cos. apply cos_atan_lt; [exact HX0|].
    unfold asr_shadow. fold X. rewrite tan_asin by lra.
    set (w := sqrt (1 - X²)) in *.
    apply IZR_le in Hm. set (m := IZR (asr_madhab conf)) in *.
    assert (E : X * (m + 1 / (X / w)) = m * X + w) by (field; lra).
    unfold Rsqr in *.
    replace (X * X * (1 + (m + 1 / (X / w)) * (m + 1 / (X / w))))
      with (X * X + (X * (m + 1 / (X / w))) * (X * (m + 1 / (X / w))))
      by ring.
    rewrite E.
    assert (Hmx : 0 < m * X) by nra.
    pose proof (Rmult_lt_0_compat _ _ Hmx Hw) as Hmxw.
    pose proof (Rmult_lt_0_compat _ _ Hmx Hmx) as Hmx2.
    replace (X * X + (m * X + w) * (m * X + w))
      with (X * X + w * w + m * X * (m * X) + 2 * (m * X * w)) by ring.
    lra. }
  pose proof (cos_atan_pos (asr_shadow (latitude conf) (declination jd)
                              (asr_madhab conf))) as Hcpos.
  fold (asr_cos (latitude conf) jd (asr_madhab conf)) in Hcpos.
  unfold reached, hour_arg. split; [exact Hx|].
  unfold dcos, dsin. rewrite declination_rad. fold phi d.
  rewrite HXc, cos_minus in Hca. rewrite cos_plus in Hcs.
  split; [nra|].
  apply between_div; [nra | lra].
Qed.

End ReachFacts.

(** ** Prayer times: the statements *)

Section PrayerClaims.

Import Hijri PyFloat Praytimes PraytimesFacts.
Local Open Scope R_scope.

Variable equation_of_time : R -> R.
Variable gregorian_to_julian : date -> R.

Local Abbreviation Prayer_init :=
  (Prayer_init equation_of_time gregorian_to_julian).
Local Abbreviation compute_times :=
  (compute_times equation_of_time gregorian_to_julian).

Lemma HijriDate_init_error y m d e :
  HijriDate_init y m d = Raise e -> exists msg, e = ValueError msg.
Proof.
  unfold HijriDate_init.
  destruct (y <? 0)%Z; [intros [= <-]; eauto|].
  destruct (negb (in_range m 1 13)); [intros [= <-]; eauto|].
  destruct (negb (in_range m 1 31)); [intros [= <-]; eauto|].
  discriminate.
Qed.

Lemma get_hijri_error dat c e :
  get_hijri gregorian_to_julian dat c = Raise e -> exists msg, e = ValueError msg.
Proof.
  unfold get_hijri.
  destruct (julian_to_hijri _ _) as [[y m] d]. apply HijriDate_init_error.
Qed.

(** The errors the computations can raise. *)
Lemma sun_declination_error jd e :
  _sun_declination jd = Raise e -> is_arithmetic e = true.
Proof.
  intros H.
  destruct (Rlt_dec (-1) (decl_sin jd)) as [H1|H1];
    [destruct (Rlt_dec (decl_sin jd) 1) as [H2|H2]|].
  - rewrite sun_declination_ok in H by lra. discriminate.
  - destruct (sun_declination_fails jd ltac:(lra)) as (e' & E & [-> | ->]);
      rewrite E in H; injection H as <-; reflexivity.
  - destruct (sun_declination_fails jd ltac:(lra)) as (e' & E & [-> | ->]);
      rewrite E in H; injection H as <-; reflexivity.
Qed.

Lemma time_for_angle_error conf jd a e :
  _get_time_for_angle conf jd a = Raise e ->
  is_arithmetic e = true \/ exists msg, e = TypeError msg.
Proof.
  destruct a as [a|ft].
  - intros H. left.
    destruct (Rlt_dec (-1) (decl_sin jd)) as [H1|H1];
      [destruct (Rlt_dec (decl_sin jd) 1) as [H2|H2]|].
    2,3: destruct (time_for_angle_fails conf jd a ltac:(lra))
           as (e' & E & [-> | ->]);
         rewrite E in H; injection H as <-; reflexivity.
    destruct (Req_dec_T (dcos (latitude conf) * dcos (declination jd)) 0)
      as [Hd|Hd].
    { destruct (time_for_angle_fails conf jd a ltac:(tauto))
        as (e' & E & [-> | ->]);
        rewrite E in H; injection H as <-; reflexivity. }
    set (s := hour_arg (latitude conf) (declination jd) (dcos a)).
    destruct (Rlt_dec (-1) s) as [H3|H3]; [destruct (Rlt_dec s 1) as [H4|H4]|].
    2,3: destruct (time_for_angle_fails conf jd a ltac:(fold s; lra))
           as (e' & E & [-> | ->]);
         rewrite E in H; injection H as <-; reflexivity.
    rewrite time_for_angle_ok in H by (fold s; lra || assumption).
    discriminate.
  - unfold _get_time_for_angle.
    destruct (_sun_declination jd) eqn:E; cbn [bind dcos_param].
    + intros [= <-]. right. eauto.
    + intros [= <-]. left. eapply sun_declination_error, E.
Qed.

Lemma asr_angle_error conf jd e :
  _get_asr_angle conf jd = Raise e -> is_arithmetic e = true.
Proof.
  unfold _get_asr_angle.
  destruct (_sun_declination jd) as [delta|e'] eqn:E; cbn [bind].
  2:{ intros [= <-]. eapply sun_declination_error, E. }
  cbv zeta. set (X := dsin (latitude conf) * dsin delta
                      + dcos (latitude conf) * dcos delta).
  destruct (Rlt_dec (-1) X) as [H1|H1]; [destruct (Rlt_dec X 1) as [H2|H2]|].
  2,3: rewrite sqrt_form_fails by lra; intros [= <-];
       destruct (Rlt_dec _ 0); reflexivity.
  rewrite sqrt_form_ok by lra. unfold py_div.
  destruct (Req_dec_T _ 0); [intros [= <-]; reflexivity | discriminate].
Qed.

Lemma compute_times_error conf dat jd c e :
  compute_times conf dat jd c = Raise e ->
  is_arithmetic e = true
  \/ (exists msg, e = TypeError msg) \/ (exists msg, e = ValueError msg).
Proof.
  unfold Praytimes.compute_times.
  set (dohr := _get_dohr_time equation_of_time conf jd).
  unfold _get_fajr_time, _get_sherook_time, _get_asr_time,
    _get_maghreb_time, _get_ishaa_time.
  assert (Ht : forall a e, _get_time_for_angle conf jd a = Raise e ->
             is_arithmetic e = true
             \/ (exists msg, e = TypeError msg)
             \/ (exists msg, e = ValueError msg)).
  { intros a e' H. apply time_for_angle_error in H as [H|H]; auto. }
  destruct (_get_time_for_angle conf jd (fajr_angle conf)) eqn:E1;
    cbn [bind]; [|intros [= <-]; eapply Ht, E1].
  destruct (_get_time_for_angle conf jd (Angle (sherook_angle conf))) eqn:E2;
    cbn [bind]; [|intros [= <-]; eapply Ht, E2].
  destruct (_get_asr_angle conf jd) eqn:E3;
    cbn [bind]; [|intros [= <-]; left; eapply asr_angle_error, E3].
  destruct (_get_time_for_angle conf jd (Angle a1)) eqn:E4;
    cbn [bind]; [|intros [= <-]; eapply Ht, E4].
  destruct (_get_time_for_angle conf jd (Angle (maghreb_angle conf))) eqn:E5;
    cbn [bind]; [|intros [= <-]; eapply Ht, E5].
  destruct (ishaa_angle conf) as [ai|ft].
  - destruct (_get_time_for_angle conf jd (Angle ai)) eqn:E6;
      cbn [bind]; [discriminate|intros [= <-]; eapply Ht, E6].
  - destruct (get_hijri gregorian_to_julian dat c) eqn:E6; cbn [bind].
    + discriminate.
    + intros [= <-]. right. right. eapply get_hijri_error, E6.
Qed.

(** Sufficient for the whole construction to go through. *)
Lemma Prayer_init_ok conf dat c :
  let jd := gregorian_to_julian dat in
  float_in_range c (-2) 5 = true ->
  0 < obliquity jd < 90 ->
  Rabs (latitude conf) + obliquity jd < 90 ->
  latitude conf <> declination jd ->
  (1 <= asr_madhab conf)%Z ->
  sun_reaches conf jd (sherook_angle conf) ->
  sun_reaches conf jd (maghreb_angle conf) ->
  (exists a, fajr_angle conf = Angle a /\ sun_reaches conf jd a) ->
  match ishaa_angle conf with
  | Angle a => sun_reaches conf jd a
  | Fixed _ => is_ok (get_hijri gregorian_to_julian dat c) = true
  end ->
  exists p, Prayer_init conf dat c = Ok p.
Proof.
  intros jd Hc Ho Hlat Hne Hm Hs Hmg (af & Haf & Hf) Hi.
  unfold Praytimes.Prayer_init. fold jd. rewrite Hc. cbn [negb].
  unfold Praytimes.compute_times.
  unfold _get_fajr_time. rewrite Haf.
  rewrite (reached_time_to conf jd af) by (now apply reached_sufficient).
  cbn [bind].
  unfold _get_sherook_time.
  rewrite (reached_time_to conf jd _ (reached_sufficient conf jd _ Ho Hs)).
  cbn [bind].
  destruct (asr_sufficient conf jd Ho Hlat Hne Hm) as [HX Hr].
  destruct (asr_angle_ok conf jd) as (a & Ha & Hca).
  { now destruct (decl_sin_bound jd Ho). }
  { lra. }
  { lra. }
  unfold _get_asr_time. rewrite Ha. cbn [bind].
  rewrite (reached_time_to conf jd a)
    by (rewrite Hca; exact Hr).
  cbn [bind].
  unfold _get_maghreb_time.
  rewrite (reached_time_to conf jd _ (reached_sufficient conf jd _ Ho Hmg)).
  cbn [bind].
  unfold _get_ishaa_time. destruct (ishaa_angle conf) as [ai|ft].
  - rewrite (reached_time_to conf jd ai) by (now apply reached_sufficient).
    cbn [bind]. eauto.
  - destruct (get_hijri gregorian_to_julian dat c) as [h|]; [|discriminate].
    cbn [bind].
    rewrite (reached_time_to conf jd _ (reached_sufficient conf jd _ Ho Hmg)).
    cbn [bind]. eauto.
Qed.

(** C3, amended: for every configuration built from a method of the
    registry at a latitude between -90 and 90 and every date for which the
    construction of the prayer times goes through, the decimal-hour values
    satisfy Fajr < Sunrise < Dhuhr < Asr < Maghrib < Isha, and Maghrib is
    before Midnight.  (Isha need not be before Midnight.) *)
Theorem C3_order_of_the_day lon lat tz n madhab st conf dat c p :
  -90 <= lat <= 90 ->
  PrayerConf_init lon lat tz (RefInt n) madhab st = Ok conf ->
  Prayer_init conf dat c = Ok p ->
  day_order p /\ _maghreb_time p < _midnight p.
Proof.
  intros Hlat Hconf Hp.
  apply PrayerConf_init_registry in Hconf
    as (El & Es & Em & _ & (af & Haf & Hfr) & Hi).
  apply Prayer_init_inv in Hp as [_ Hp].
  apply compute_times_inv in Hp
    as (fajr & sherook & asr & maghreb & ishaa
        & Hf & Hs & Ha & Hmg & Hish & ->).
  set (jd := gregorian_to_julian dat) in *.
  set (dohr := _get_dohr_time equation_of_time conf jd) in *.
  apply fajr_time_inv in Hf as (af' & Haf' & Rf & ->).
  rewrite Haf in Haf'. injection Haf' as <-.
  apply sherook_time_inv in Hs as (Rs & ->).
  apply asr_time_inv in Ha as (HX & HX0 & Ra & ->).
  apply maghreb_time_inv in Hmg as (Rm & ->).
  apply ishaa_time_inv in Hish.
  rewrite Es in *. rewrite Em in *. rewrite El in *.
  pose proof (time_to_bounds _ _ _ Rf) as Bf.
  pose proof (time_to_bounds _ _ _ Rs) as Bs.
  pose proof (time_to_bounds _ _ _ Ra) as Ba.
  assert (Hfs : time_to lat jd (dcos 90.83333) < time_to lat jd (dcos af)).
  { apply time_to_decreasing; try assumption.
    apply dcos_decreasing; lra. }
  assert (Ham : time_to lat jd (asr_cos lat jd (asr_madhab conf))
                < time_to lat jd (dcos 90.83333)).
  { apply time_to_decreasing; try assumption.
    pose proof (cos_atan_pos (asr_shadow lat (declination jd)
                                (asr_madhab conf))) as Hc.
    fold (asr_cos lat jd (asr_madhab conf)) in Hc.
    assert (dcos 90.83333 < 0); [|lra].
    pose proof PI_RGT_0. unfold dcos. apply cos_lt_0; nra. }
  unfold day_order. cbn.
  repeat split; try lra.
  - destruct (ishaa_angle conf) as [ai|ft].
    + destruct Hish as (Ri & ->).
      assert (time_to lat jd (dcos 90.83333) < time_to lat jd (dcos ai)); [|lra].
      apply time_to_decreasing; try assumption.
      apply dcos_decreasing; lra.
    + destruct Hish as (h & _ & _ & ->).
      assert (0 < (if (month h =? 9)%Z then ramadan_time_hr ft
                   else all_year_time_hr ft)); [|lra].
      unfold ramadan_time_hr, all_year_time_hr.
      destruct (month h =? 9)%Z; lra.
  - unfold _get_midnight. lra.
Qed.

(** C6: for a configuration whose Isha parameter is a fixed-offset rule,
    whenever the prayer times are constructed, the Hijri date of the day
    (with the same correction) has been computed, and the Isha value is
    the Maghrib value plus ramadan_minutes/60 when the Hijri month is 9 and
    plus all_year_minutes/60 otherwise. *)
Theorem C6_fixed_offset_isha conf dat c ft p :
  ishaa_angle conf = Fixed ft ->
  Prayer_init conf dat c = Ok p ->
  exists h,
    get_hijri gregorian_to_julian dat c = Ok h
    /\ _ishaa_time p
       = _maghreb_time p
         + (if (month h =? 9)%Z then _ramadan_time ft / 60
            else _all_year_time ft / 60).
Proof.
  intros Hft Hp.
  apply Prayer_init_inv in Hp as [_ Hp].
  apply compute_times_inv in Hp
    as (fajr & sherook & asr & maghreb & ishaa
        & _ & _ & _ & Hmg & Hish & ->).
  apply maghreb_time_inv in Hmg as (_ & ->).
  apply ishaa_time_inv in Hish. rewrite Hft in Hish.
  destruct Hish as (h & Hh & _ & ->).
  exists h. split; [exact Hh|]. cbn.
  unfold ramadan_time_hr, all_year_time_hr.
  destruct (month h =? 9)%Z; lra.
Qed.

Lemma PrayerConf_init_fields lon lat tz ref madhab st conf :
  PrayerConf_init lon lat tz ref madhab st = Ok conf ->
  latitude conf = lat
  /\ longitude_difference conf = (tz * 15 - lon) / 15
  /\ asr_madhab conf = (if (madhab =? 2)%Z then madhab else 1%Z).
Proof.
  unfold PrayerConf_init. intros H.
  apply bind_inv in H as (m & _ & [= <-]). cbn. auto.
Qed.

(** C7: at a latitude between -90 and 90, for two configurations that
    differ in the madhab only, and a date for which both sets of prayer
    times are constructed, the Asr value of the madhab 2 (Hanafi) is
    strictly later than that of the madhab 1 (Shafi'i). *)
Theorem C7_hanafi_asr_later lon lat tz ref st conf1 conf2 dat c p1 p2 :
  -90 <= lat <= 90 ->
  PrayerConf_init lon lat tz ref 1 st = Ok conf1 ->
  PrayerConf_init lon lat tz ref 2 st = Ok conf2 ->
  Prayer_init conf1 dat c = Ok p1 ->
  Prayer_init conf2 dat c = Ok p2 ->
  _asr_time p1 < _asr_time p2.
Proof.
  intros Hlat H1 H2 Hp1 Hp2.
  apply PrayerConf_init_fields in H1 as (L1 & D1 & M1).
  apply PrayerConf_init_fields in H2 as (L2 & D2 & M2).
  cbn in M1, M2.
  apply Prayer_init_inv in Hp1 as [_ Hp1].
  apply Prayer_init_inv in Hp2 as [_ Hp2].
  apply compute_times_inv in Hp1
    as (f1 & s1 & a1 & m1 & i1 & _ & _ & Ha1 & _ & _ & ->).
  apply compute_times_inv in Hp2
    as (f2 & s2 & a2 & m2 & i2 & _ & _ & Ha2 & _ & _ & ->).
  cbn [_asr_time].
  apply asr_time_inv in Ha1 as (HX & _ & R1 & ->).
  apply asr_time_inv in Ha2 as (_ & _ & R2 & ->).
  rewrite L1, M1 in *. rewrite L2, M2 in *.
  unfold _get_dohr_time. rewrite D1, D2.
  set (jd := gregorian_to_julian dat) in *.
  destruct (asr_reached_noon lat jd 1 Hlat HX R1) as [_ Hsh].
  assert (time_to lat jd (asr_cos lat jd 1) < time_to lat jd (asr_cos lat jd 2));
    [|lra].
  apply time_to_decreasing; try assumption.
  apply asr_cos_decreasing; [lra | lia | exact Hsh].
Qed.

(** C8: a correction value that is none of the integers -2, -1, 0, 1, 2
    makes the constructor raise its exception, whatever the configuration
    and the date, so before any time is computed; with one of these five
    integers the constructor goes on to the computation of the times, and
    does not raise that exception. *)
Theorem C8_correction_value conf dat c :
  ((forall k : Z, (-2 <= k <= 2)%Z -> c <> IZR k) ->
   Prayer_init conf dat c
   = Raise (PlainException "Correction value exception"))
  /\ ((exists k : Z, (-2 <= k <= 2)%Z /\ c = IZR k) ->
      Prayer_init conf dat c
      = compute_times conf dat (gregorian_to_julian dat) c
      /\ forall msg, Prayer_init conf dat c <> Raise (PlainException msg)).
Proof.
  unfold Praytimes.Prayer_init. split.
  - intros Hout.
    destruct (float_in_range c (-2) 5) eqn:E; [|reflexivity].
    apply float_in_range_spec in E as (k & Hk & ->).
    exfalso. apply (Hout k); [simpl in Hk; lia | reflexivity].
  - intros (k & Hk & ->).
    assert (E : float_in_range (IZR k) (-2) 5 = true).
    { apply float_in_range_spec. exists k. split; [simpl; lia | reflexivity]. }
    rewrite E. cbn [negb]. split; [reflexivity|].
    intros msg H.
    destruct (compute_times_error _ _ _ _ _ H) as [Ha | [[m Hm] | [m Hm]]];
      [discriminate Ha | discriminate Hm | discriminate Hm].
Qed.

(** At the pole, [latitude = 90] zeroes the denominator of the hour-angle
    formula, whatever the date. *)
Lemma north_pole_raises conf dat c a :
  latitude conf = 90 ->
  0 < obliquity (gregorian_to_julian dat) < 90 ->
  float_in_range c (-2) 5 = true ->
  fajr_angle conf = Angle a ->
  Prayer_init conf dat c = Raise ZeroDivisionError.
Proof.
  intros Hlat Ho Hc Ha.
  unfold Praytimes.Prayer_init. rewrite Hc. cbn [negb].
  unfold Praytimes.compute_times, _get_fajr_time. rewrite Ha.
  unfold _get_time_for_angle.
  rewrite sun_declination_ok by (now destruct (decl_sin_bound _ Ho)).
  cbn [bind dcos_param]. rewrite Hlat, dcos_90, Rmult_0_l, py_div_zero.
  reflexivity.
Qed.


End PrayerClaims.

(** ** Numerical bounds *)

Section Numerics.

Import PyFloat Praytimes PraytimesFacts.
Local Open Scope R_scope.

Lemma PI_bounds : 3.1415 < PI < 3.1421.
Proof.
  pose proof (PI_2_3_7_ineq 1) as H.
  unfold sum_f_R0, tg_alt, PI_2_3_7_tg, Ratan_seq in H.
  simpl in H. lra.
Qed.

(** Evaluation of the Taylor bounds of the library at a decimal. *)
Ltac eval_approx :=
  unfold sin_lb, sin_ub, cos_lb, cos_ub, sin_approx, cos_approx;
  cbn [sum_f_R0]; unfold sin_term, cos_term;
  repeat rewrite INR_IZR_INZ;
  repeat match goal with
  | |- context [Z.of_nat ?n] =>
      let v := eval vm_compute in (Z.of_nat n) in
      change (Z.of_nat n) with v
  end;
  cbn [pow Nat.mul Nat.add].

Lemma sin_lower a y l :
  0 <= a -> a <= y -> y <= PI / 2 -> l <= sin_lb a -> l <= sin y.
Proof.
  intros Ha Hay Hy Hl. pose proof PI_RGT_0.
  pose proof (SIN a Ha ltac:(lra)) as [H1 _].
  pose proof (sin_incr_1 a y ltac:(lra) ltac:(lra) ltac:(lra) Hy Hay). lra.
Qed.

Lemma sin_upper b y u :
  0 <= y -> y <= b -> b <= PI / 2 -> sin_ub b <= u -> sin y <= u.
Proof.
  intros Hy Hyb Hb Hu. pose proof PI_RGT_0.
  pose proof (SIN b ltac:(lra) ltac:(lra)) as [_ H1].
  pose proof (sin_incr_1 y b ltac:(lra) ltac:(lra) ltac:(lra) Hb Hyb). lra.
Qed.

Lemma cos_lower b y l :
  Rabs y <= b -> b <= PI / 2 -> l <= cos_lb b -> l <= cos y.
Proof.
  intros Hy Hb Hl. pose proof PI_RGT_0. pose proof (Rabs_pos y).
  pose proof (COS b ltac:(lra) Hb) as [H1 _].
  pose proof (cos_le_abs y b Hy ltac:(lra)). lra.
Qed.

Lemma cos_upper a y u :
  0 <= a -> a <= y -> y <= PI / 2 -> cos_ub a <= u -> cos y <= u.
Proof.
  intros Ha Hay Hy Hu. pose proof PI_RGT_0.
  pose proof (COS a ltac:(lra) ltac:(lra)) as [_ H1].
  assert (Rabs a <= y) by (rewrite Rabs_pos_eq; lra).
  pose proof (cos_le_abs a y H0 ltac:(lra)). lra.
Qed.

Lemma cos_1_lower : 0.54 <= cos 1.
Proof.
  pose proof PI_bounds.
  apply (cos_lower 1); [rewrite Rabs_pos_eq; lra | lra |].
  eval_approx. lra.
Qed.

Lemma cos_third_upper : cos (1 / 3) <= 0.945.
Proof.
  pose proof PI_bounds.
  apply (cos_upper (1 / 3)); [lra | lra | lra |].
  eval_approx. lra.
Qed.

(** The sun on 2000-01-01. *)
Lemma obliquity_J2000 : obliquity J2000 = 23.44.
Proof. unfold obliquity, J2000. lra. Qed.

Lemma ecliptic_longitude_J2000 :
  278.5 < ecliptic_longitude J2000 < 282.5.
Proof.
  unfold ecliptic_longitude, J2000. cbv zeta.
  set (g := 357.528 + 0.9856003 * (2451544.5 - 2451544.5)).
  unfold dsin.
  pose proof (SIN_bound (g * PI / 180)).
  pose proof (SIN_bound (2 * g * PI / 180)). lra.
Qed.

Lemma dsin_ecliptic_longitude_J2000 :
  -1 <= dsin (ecliptic_longitude J2000) <= -0.97.
Proof.
  pose proof ecliptic_longitude_J2000 as [Hl Hu]. pose proof PI_bounds as HPI.
  unfold dsin. split; [apply SIN_bound|].
  set (t := ecliptic_longitude J2000 * PI / 180 - 3 * (PI / 2)).
  replace (ecliptic_longitude J2000 * PI / 180) with (3 * (PI / 2) + t)
    by (unfold t; ring).
  rewrite sin_plus, sin_3PI2, cos_3PI2.
  assert (Ht : Rabs t <= 0.22).
  { apply Rabs_le. unfold t. split; nra. }
  pose proof (cos_lower 0.22 t 0.97 Ht ltac:(lra)) as Hc.
  assert (0.97 <= cos_lb 0.22) by (eval_approx; lra).
  specialize (Hc H). lra.
Qed.

Lemma dsin_obliquity_J2000 : 0.397 <= dsin (obliquity J2000) <= 0.40.
Proof.
  rewrite obliquity_J2000. pose proof PI_bounds as HPI. unfold dsin. split.
  - apply (sin_lower 0.409); [lra | nra | nra |]. eval_approx. lra.
  - apply (sin_upper 0.4092); [nra | nra | nra |]. eval_approx. lra.
Qed.

Lemma decl_sin_J2000 : -0.40 <= decl_sin J2000 <= -0.385.
Proof.
  pose proof dsin_obliquity_J2000. pose proof dsin_ecliptic_longitude_J2000.
  unfold decl_sin. split; nra.
Qed.

Lemma decl_sin_J2000_range : -1 < decl_sin J2000 < 1.
Proof. pose proof decl_sin_J2000. lra. Qed.

Lemma dsin_declination_J2000 :
  -0.40 <= dsin (declination J2000) <= -0.385.
Proof.
  rewrite dsin_declination by apply decl_sin_J2000_range.
  apply decl_sin_J2000.
Qed.

Lemma dcos_declination_J2000 : 0.916 <= dcos (declination J2000) <= 0.923.
Proof.
  pose proof decl_sin_J2000 as Hx. pose proof decl_sin_J2000_range as Hr.
  pose proof (dcos_declination_pos J2000 Hr) as Hp.
  assert (E : dcos (declination J2000) * dcos (declination J2000)
              = 1 - decl_sin J2000 * decl_sin J2000).
  { unfold dcos. rewrite declination_rad.
    pose proof (sin2_cos2 (asin (decl_sin J2000))) as H.
    rewrite sin_asin in H by lra. unfold Rsqr in H. lra. }
  split; nra.
Qed.

Lemma declination_J2000_nonzero : declination J2000 <> 0.
Proof.
  intros E. pose proof dsin_declination_J2000 as H.
  rewrite E, dsin_0 in H. lra.
Qed.

(** The targets: 18 degrees below the horizon, and sunrise and sunset. *)
Lemma dcos_108 : dcos (18.0 + 90.0) <= -0.308.
Proof.
  pose proof PI_bounds as HPI. unfold dcos.
  replace ((18.0 + 90.0) * PI / 180) with (PI / 2 + 18 * PI / 180) by lra.
  rewrite cos_plus, cos_PI2, sin_PI2.
  assert (0.308 <= sin (18 * PI / 180)); [|lra].
  apply (sin_lower 0.3141); [lra | nra | nra |]. eval_approx. lra.
Qed.

Lemma dcos_sunset : -0.0146 <= dcos 90.83333 < 0.
Proof.
  pose proof PI_bounds as HPI. unfold dcos.
  replace (90.83333 * PI / 180) with (PI / 2 + 0.83333 * PI / 180) by lra.
  rewrite cos_plus, cos_PI2, sin_PI2.
  pose proof (sin_lt_x (0.83333 * PI / 180) ltac:(nra)).
  pose proof (sin_gt_0 (0.83333 * PI / 180) ltac:(nra) ltac:(nra)).
  split; nra.
Qed.

(** Latitude 48.5 degrees south. *)
Lemma dsin_lat_south : -0.751 <= dsin (-48.5) <= -0.745.
Proof.
  pose proof PI_bounds as HPI. unfold dsin.
  replace (-48.5 * PI / 180) with (- (48.5 * PI / 180)) by lra.
  rewrite sin_neg.
  assert (0.745 <= sin (48.5 * PI / 180) <= 0.751); [|lra]. split.
  - apply (sin_lower 0.8464); [lra | nra | nra |]. eval_approx. lra.
  - apply (sin_upper 0.8467); [nra | nra | nra |]. eval_approx. lra.
Qed.

Lemma dcos_lat_south : 0.66 <= dcos (-48.5) <= 0.664.
Proof.
  pose proof PI_bounds as HPI. unfold dcos.
  replace (-48.5 * PI / 180) with (- (48.5 * PI / 180)) by lra.
  rewrite cos_neg. split.
  - apply (cos_lower 0.8467); [rewrite Rabs_pos_eq; nra | nra |].
    eval_approx. lra.
  - apply (cos_upper 0.8464); [lra | nra | nra |]. eval_approx. lra.
Qed.

(** Latitude 80 degrees south. *)
Lemma dsin_lat_far_south : dsin (-80) <= -0.98.
Proof.
  pose proof PI_bounds as HPI. unfold dsin.
  replace (-80 * PI / 180) with (- (80 * PI / 180)) by lra.
  rewrite sin_neg.
  assert (0.98 <= sin (80 * PI / 180)); [|lra].
  apply (sin_lower 1.396); [lra | nra | nra |]. eval_approx. lra.
Qed.

Lemma dcos_lat_far_south : 0 < dcos (-80) <= 0.18.
Proof.
  pose proof PI_bounds as HPI. split; [apply dcos_pos; lra|].
  unfold dcos.
  replace (-80 * PI / 180) with (- (80 * PI / 180)) by lra.
  rewrite cos_neg.
  apply (cos_upper 1.396); [lra | nra | nra |]. eval_approx. lra.
Qed.

End Numerics.

(** ** The prayer times of 2000-01-01 at two places *)

Section Instances.

Import Hijri PyFloat Praytimes PraytimesFacts.
Local Open Scope R_scope.

Variable equation_of_time : R -> R.
Variable gregorian_to_julian : date -> R.
Variable dat : date.
Hypothesis dat_J2000 : gregorian_to_julian dat = J2000.

Local Abbreviation Prayer_init :=
  (Prayer_init equation_of_time gregorian_to_julian).

Lemma float_in_range_0 : float_in_range 0 (-2) 5 = true.
Proof. apply float_in_range_spec. exists 0%Z. split; [simpl; lia | reflexivity]. Qed.

Lemma acos_ge x b : 0 <= b <= PI -> -1 <= x <= cos b -> b <= acos x.
Proof.
  intros Hb [Hx [Hlt | ->]].
  - rewrite <- (acos_cos b Hb). left. apply acos_decreasing; try lra.
    pose proof (COS_bound b). lra.
  - rewrite acos_cos by exact Hb. lra.
Qed.

Lemma acos_le x b : 0 <= b <= PI -> cos b <= x <= 1 -> acos x <= b.
Proof.
  intros Hb [[Hlt | <-] Hx].
  - rewrite <- (acos_cos b Hb). left. apply acos_decreasing; try lra.
    pose proof (COS_bound b). lra.
  - rewrite acos_cos by exact Hb. lra.
Qed.

(** Latitude 48.5 south, method 1 (Fajr and Isha at 18 degrees): the
    times are computed, and Isha falls after Midnight. *)
Lemma south_hour_args :
  let s_f := hour_arg (-48.5) (declination J2000) (dcos (18.0 + 90.0)) in
  let s_0 := hour_arg (-48.5) (declination J2000) (dcos 90.83333) in
  s_f <= -0.945 /\ -0.54 <= s_0.
Proof.
  pose proof dsin_declination_J2000 as Hsd.
  pose proof dcos_declination_J2000 as Hcd.
  pose proof dsin_lat_south as Hsl. pose proof dcos_lat_south as Hcl.
  pose proof dcos_108 as H108. pose proof dcos_sunset as H90.
  cbv zeta. unfold hour_arg.
  set (D := dcos (-48.5) * dcos (declination J2000)).
  set (P := dsin (-48.5) * dsin (declination J2000)).
  assert (HD : 0.60456 <= D <= 0.612872) by (unfold D; nra).
  assert (HP : 0.286825 <= P <= 0.3004) by (unfold P; nra).
  assert (HDi : 0 < / D) by (apply Rinv_0_lt_compat; lra).
  assert (E : D * / D = 1) by (apply Rinv_r; lra).
  unfold Rdiv. split; nra.
Qed.

Lemma south_times_to :
  reached (-48.5) J2000 (dcos (18.0 + 90.0)) ->
  reached (-48.5) J2000 (dcos 90.83333) ->
  24 + time_to (-48.5) J2000 (dcos 90.83333)
  <= 3 * time_to (-48.5) J2000 (dcos (18.0 + 90.0)).
Proof.
  intros (_ & _ & Rf) (_ & _ & R0).
  pose proof south_hour_args as [Hf H0]. cbv zeta in Hf, H0.
  pose proof PI_bounds as HPI.
  pose proof cos_1_lower. pose proof cos_third_upper.
  unfold time_to, hour_angle.
  set (s_f := hour_arg (-48.5) (declination J2000) (dcos (18.0 + 90.0))) in *.
  set (s_0 := hour_arg (-48.5) (declination J2000) (dcos 90.83333)) in *.
  assert (Af : PI - 1 / 3 <= acos s_f).
  { replace s_f with (- - s_f) by ring. rewrite acos_opp.
    pose proof (acos_le (- s_f) (1 / 3) ltac:(lra) ltac:(lra)). lra. }
  assert (A0 : acos s_0 <= PI - 1).
  { replace s_0 with (- - s_0) by ring. rewrite acos_opp.
    pose proof (acos_ge (- s_0) 1 ltac:(lra) ltac:(lra)). lra. }
  assert (Hk : 0 < 180 / PI / 15).
  { apply Rdiv_lt_0_compat; [apply Rdiv_lt_0_compat|]; lra. }
  assert (Ek : 180 / PI / 15 * PI = 12) by (field; lra).
  replace (180 / PI * acos s_0 / 15) with (180 / PI / 15 * acos s_0)
    by (field; lra).
  replace (180 / PI * acos s_f / 15) with (180 / PI / 15 * acos s_f)
    by (field; lra).
  nra.
Qed.

Lemma south_reaches conf a :
  latitude conf = -48.5 -> 71.94 < a < 108.06 -> sun_reaches conf J2000 a.
Proof.
  intros Hl Ha. unfold sun_reaches. rewrite Hl, obliquity_J2000.
  replace (Rabs (-48.5)) with 48.5
    by (rewrite <- Rabs_Ropp, Rabs_pos_eq; lra).
  lra.
Qed.

Lemma south_not_declination : -48.5 <> declination J2000.
Proof.
  intros E. pose proof dsin_declination_J2000 as H. rewrite <- E in H.
  pose proof dsin_lat_south. lra.
Qed.

Lemma isha_after_midnight lon tz :
  exists conf p,
    PrayerConf_init lon (-48.5) tz (RefInt 1) 1 false = Ok conf
    /\ Prayer_init conf dat 0 = Ok p
    /\ _midnight p <= _ishaa_time p.
Proof.
  eexists. 
  set (conf := mkPrayerConf lon (-48.5) tz 90.83333 90.83333 1 (tz * 15)
                 ((tz * 15 - lon) / 15) false
                 (Angle (18.0 + 90.0)) (Angle (18.0 + 90.0))).
  assert (Ho : 0 < obliquity (gregorian_to_julian dat) < 90)
    by (rewrite dat_J2000, obliquity_J2000; lra).
  destruct (Prayer_init_ok equation_of_time gregorian_to_julian conf dat 0)
    as [p Hp]; try rewrite dat_J2000; cbn.
  - apply float_in_range_0.
  - rewrite obliquity_J2000. lra.
  - rewrite obliquity_J2000.
    replace (Rabs (-48.5)) with 48.5
      by (rewrite <- Rabs_Ropp, Rabs_pos_eq; lra).
    lra.
  - apply south_not_declination.
  - lia.
  - apply south_reaches; [reflexivity | lra].
  - apply south_reaches; [reflexivity | lra].
  - eexists. split; [reflexivity|]. apply south_reaches; [reflexivity | lra].
  - apply south_reaches; [reflexivity | lra].
  - exists p. split; [reflexivity|]. split; [exact Hp|].
    apply Prayer_init_inv in Hp as [_ Hp].
    apply compute_times_inv in Hp
      as (fajr & sherook & asr & maghreb & ishaa
          & Hf & _ & _ & Hmg & Hish & ->).
    rewrite dat_J2000 in *.
    apply fajr_time_inv in Hf as (af & Haf & Rf & ->).
    injection Haf as <-.
    apply maghreb_time_inv in Hmg as (Rm & ->).
    apply ishaa_time_inv in Hish. cbn in Hish, Rf, Rm.
    destruct Hish as (_ & ->).
    pose proof (south_times_to Rf Rm) as H.
    cbn. unfold _get_midnight. lra.
Qed.

(** Latitude 80 south, method 2: the sun stays above 18 degrees below the
    horizon (it does not even set), the argument [s] of the Fajr hour angle
    is below -1 and the square root raises. *)
Lemma far_south_raises lon tz :
  exists conf,
    PrayerConf_init lon (-80) tz (RefInt 2) 1 false = Ok conf
    /\ Prayer_init conf dat 0 = Raise MathDomainError.
Proof.
  eexists. split; [reflexivity|].
  unfold Praytimes.Prayer_init. rewrite float_in_range_0. cbn [negb].
  unfold Praytimes.compute_times, _get_fajr_time. cbn [fajr_angle shift_angle
    mi_fajr_angle]. rewrite dat_J2000.
  unfold _get_time_for_angle.
  rewrite sun_declination_ok by apply decl_sin_J2000_range.
  cbn [bind dcos_param latitude].
  pose proof dsin_declination_J2000 as Hsd.
  pose proof dcos_declination_J2000 as Hcd.
  pose proof dsin_lat_far_south as Hsl. pose proof dcos_lat_far_south as Hcl.
  pose proof dcos_108 as H108.
  pose proof (SIN_bound (-80 * PI / 180)) as Hb. fold (dsin (-80)) in Hb.
  set (D := dcos (-80) * dcos (declination J2000)) in *.
  set (N := dcos (18.0 + 90.0) - dsin (-80) * dsin (declination J2000)) in *.
  assert (HD : 0 < D <= 0.16614) by (unfold D; nra).
  assert (HN : N <= -0.6853) by (unfold N; nra).
  rewrite py_div_ok by lra. cbn [bind].
  assert (Hs : N / D < -1).
  { assert (HDi : 0 < / D) by (apply Rinv_0_lt_compat; lra).
    assert (E : D * / D = 1) by (apply Rinv_r; lra).
    unfold Rdiv. nra. }
  rewrite sqrt_form_fails by lra.
  destruct (Rlt_dec (- (N / D) * (N / D) + 1) 0) as [|Hn]; [reflexivity|].
  exfalso. apply Hn. nra.
Qed.

(** On the equator every method of interest goes through. *)
Lemma equator_reaches conf a :
  latitude conf = 0 -> 23.44 < a < 156.56 -> sun_reaches conf J2000 a.
Proof.
  intros Hl Ha. unfold sun_reaches. rewrite Hl, obliquity_J2000, Rabs_R0. lra.
Qed.

Lemma py_int_J2000 : py_int (J2000 + 0) = 2451544%Z.
Proof. apply py_int_floor; [unfold J2000; lra | lia]. Qed.

Lemma get_hijri_J2000 :
  get_hijri gregorian_to_julian dat 0
  = Ok (mkHijriDate 1420 9 23 (hijri_to_julian 1420 9 23)).
Proof.
  unfold get_hijri, julian_to_hijri. rewrite dat_J2000, py_int_J2000.
  reflexivity.
Qed.

Lemma equator_constructed n madhab conf :
  PrayerConf_init 0 0 0 (RefInt n) madhab false = Ok conf ->
  exists p, Prayer_init conf dat 0 = Ok p.
Proof.
  intros Hconf.
  pose proof (PrayerConf_init_registry _ _ _ _ _ _ _ Hconf)
    as (El & Es & Em & Hm & (af & Haf & Hfr) & Hi).
  assert (Hmeth : exists m, In m LIST_FAJR_ISHA_METHODS
                            /\ fajr_angle conf = shift_angle (mi_fajr_angle m)
                            /\ ishaa_angle conf = shift_angle (mi_ishaa_angle m)).
  { unfold PrayerConf_init in Hconf.
    apply bind_inv in Hconf as (m & Hg & [= <-]).
    exists m. split; [eapply py_getitem_In, Hg|]. cbn. auto. }
  destruct Hmeth as (m & Hin & Efa & Eia).
  assert (Hang : forall a, mi_fajr_angle m = Angle a \/ mi_ishaa_angle m = Angle a ->
                           12 <= a <= 20).
  { intros a Ha. unfold LIST_FAJR_ISHA_METHODS in Hin. cbn in Hin.
    repeat (destruct Hin as [<- | Hin];
            [cbn in Ha; destruct Ha as [[= <-] | Ha];
             [lra | try discriminate Ha; injection Ha as <-; lra]|]).
    destruct Hin. }
  apply Prayer_init_ok; rewrite ?dat_J2000, ?El, ?Es, ?Em.
  - apply float_in_range_0.
  - rewrite obliquity_J2000. lra.
  - rewrite obliquity_J2000, Rabs_R0. lra.
  - intros E. apply declination_J2000_nonzero. now symmetry.
  - destruct Hm as [-> | ->]; lia.
  - apply equator_reaches; [exact El | lra].
  - apply equator_reaches; [exact El | lra].
  - exists af. split; [exact Haf|]. apply equator_reaches; [exact El|].
    rewrite Efa in Haf. destruct (mi_fajr_angle m) as [a|] eqn:Ea;
      [|discriminate]. cbn in Haf. injection Haf as <-.
    pose proof (Hang a (or_introl eq_refl)). lra.
  - rewrite Eia. destruct (mi_ishaa_angle m) as [a|ft] eqn:Ea;
      cbn [shift_angle].
    + apply equator_reaches; [exact El|].
      pose proof (Hang a (or_intror eq_refl)). lra.
    + rewrite get_hijri_J2000. reflexivity.
Qed.

End Instances.

(** ** Closed instances *)

Section ClosedInstances.

Import Hijri PyFloat Praytimes PraytimesFacts.
Local Open Scope R_scope.

Local Abbreviation Prayer_init_2000 :=
  (fun conf c =>
     Prayer_init sample_equation_of_time sample_gregorian_to_julian
       conf new_year_2000 c).

Lemma sample_J2000 : sample_gregorian_to_julian new_year_2000 = J2000.
Proof.
  unfold sample_gregorian_to_julian, new_year_2000, J2000.
  cbn [d_year d_month d_day].
  match goal with
  | |- IZR ?z - _ = _ => let v := eval vm_compute in z in change z with v
  end.
  lra.
Qed.

(** C3 as stated fails: at latitude 48.5 south on 2000-01-01, with the
    method 1 of the registry (Fajr and Isha at 18 degrees), the prayer
    times are constructed and Isha is not before Midnight. *)
Lemma C3_counterexample :
  exists conf p,
    PrayerConf_init 0 (-48.5) 0 (RefInt 1) 1 false = Ok conf
    /\ Prayer_init_2000 conf 0 = Ok p
    /\ _midnight p <= _ishaa_time p.
Proof.
  exact (isha_after_midnight sample_equation_of_time
           sample_gregorian_to_julian new_year_2000 sample_J2000 0 0).
Qed.

Lemma C3_order_of_the_day_witness :
  exists conf p,
    -90 <= 0 <= 90
    /\ PrayerConf_init 0 0 0 (RefInt 2) 1 false = Ok conf
    /\ Prayer_init_2000 conf 0 = Ok p
    /\ day_order p /\ _maghreb_time p < _midnight p.
Proof.
  assert (Hlat : -90 <= 0 <= 90) by lra.
  destruct (PrayerConf_init 0 0 0 (RefInt 2) 1 false) as [conf|] eqn:Hconf;
    [|discriminate].
  destruct (equator_constructed sample_equation_of_time
              sample_gregorian_to_julian new_year_2000 sample_J2000
              2 1 conf Hconf) as [p Hp].
  exists conf, p. split; [exact Hlat|]. split; [reflexivity|].
  split; [exact Hp|].
  exact (C3_order_of_the_day sample_equation_of_time
           sample_gregorian_to_julian 0 0 0 2 1 false conf new_year_2000 0 p
           Hlat Hconf Hp).
Defined.



Lemma C6_fixed_offset_isha_witness :
  exists conf p h,
    PrayerConf_init 0 0 0 (RefInt 4) 1 false = Ok conf
    /\ ishaa_angle conf = Fixed (mkFixedTime 90 120)
    /\ Prayer_init_2000 conf 0 = Ok p
    /\ get_hijri sample_gregorian_to_julian new_year_2000 0 = Ok h
    /\ month h = 9%Z
    /\ _ishaa_time p = _maghreb_time p + 120 / 60.
Proof.
  destruct (PrayerConf_init 0 0 0 (RefInt 4) 1 false) as [conf|] eqn:Hconf;
    [|discriminate].
  destruct (equator_constructed sample_equation_of_time
              sample_gregorian_to_julian new_year_2000 sample_J2000
              4 1 conf Hconf) as [p Hp].
  assert (Hft : ishaa_angle conf = Fixed (mkFixedTime 90 120)).
  { injection Hconf as <-. reflexivity. }
  destruct (C6_fixed_offset_isha sample_equation_of_time
              sample_gregorian_to_julian conf new_year_2000 0
              (mkFixedTime 90 120) p Hft Hp) as (h & Hh & Hi).
  exists conf, p, h. split; [reflexivity|]. split; [exact Hft|].
  split; [exact Hp|]. split; [exact Hh|].
  rewrite (get_hijri_J2000 sample_gregorian_to_julian new_year_2000
             sample_J2000) in Hh.
  injection Hh as <-. split; [reflexivity|]. exact Hi.
Defined.

Lemma C7_hanafi_asr_later_witness :
  exists conf1 conf2 p1 p2,
    -90 <= 0 <= 90
    /\ PrayerConf_init 0 0 0 (RefInt 2) 1 false = Ok conf1
    /\ PrayerConf_init 0 0 0 (RefInt 2) 2 false = Ok conf2
    /\ Prayer_init_2000 conf1 0 = Ok p1
    /\ Prayer_init_2000 conf2 0 = Ok p2
    /\ _asr_time p1 < _asr_time p2.
Proof.
  assert (Hlat : -90 <= 0 <= 90) by lra.
  destruct (PrayerConf_init 0 0 0 (RefInt 2) 1 false) as [conf1|] eqn:H1;
    [|discriminate].
  destruct (PrayerConf_init 0 0 0 (RefInt 2) 2 false) as [conf2|] eqn:H2;
    [|discriminate].
  destruct (equator_constructed sample_equation_of_time
              sample_gregorian_to_julian new_year_2000 sample_J2000
              2 1 conf1 H1) as [p1 Hp1].
  destruct (equator_constructed sample_equation_of_time
              sample_gregorian_to_julian new_year_2000 sample_J2000
              2 2 conf2 H2) as [p2 Hp2].
  exists conf1, conf2, p1, p2.
  repeat (split; [first [exact Hlat | reflexivity | assumption]|]).
  exact (C7_hanafi_asr_later sample_equation_of_time
           sample_gregorian_to_julian 0 0 0 (RefInt 2) false conf1 conf2
           new_year_2000 0 p1 p2 Hlat H1 H2 Hp1 Hp2).
Defined.

Lemma C8_correction_value_witness :
  PrayerConf_init 0 0 0 (RefInt 2) 1 false = Ok equator_conf
  /\ Prayer_init_2000 equator_conf 3
     = Raise (PlainException "Correction value exception")
  /\ Prayer_init_2000 equator_conf 1
     = compute_times sample_equation_of_time sample_gregorian_to_julian
         equator_conf new_year_2000
         (sample_gregorian_to_julian new_year_2000) 1.
Proof.
  split; [reflexivity|]. split.
  - apply (proj1 (C8_correction_value sample_equation_of_time
                    sample_gregorian_to_julian equator_conf new_year_2000 3)).
    intros k Hk E. apply eq_IZR in E. lia.
  - apply (proj2 (C8_correction_value sample_equation_of_time
                    sample_gregorian_to_julian equator_conf new_year_2000 1)).
    exists 1%Z. split; [lia | reflexivity].
Defined.

End ClosedInstances.

(** ** HijriDate: construction and rendering *)

Section HijriMore.

Import Hijri HijriFacts PyFloat Praytimes HijriFormat.
Local Open Scope string_scope.
Local Open Scope Z_scope.

(** The constructor accepts exactly the years that are not negative with a
    month in 1..12, whatever the day, and stores the three arguments; its
    test of the day can never fail, so its third message is never
    raised. *)
Theorem HijriDate_init_outcome y m d :
  (is_ok (HijriDate_init y m d) = true <-> 0 <= y /\ 1 <= m <= 12)
  /\ (forall h, HijriDate_init y m d = Ok h ->
                year h = y /\ month h = m /\ day h = d)
  /\ HijriDate_init y m d
     <> Raise (ValueError "day should be bitween 1 and 30").
Proof.
  split; [apply HijriDate_init_ok_iff|]. split.
  - intros h Hh. apply HijriDate_init_stores in Hh. tauto.
  - unfold HijriDate_init.
    destruct (y <? 0); [discriminate|].
    destruct (in_range m 1 13) eqn:Hm; cbn [negb]; [|discriminate].
    apply in_range_spec in Hm.
    assert (H : in_range m 1 31 = true) by (apply in_range_spec; lia).
    rewrite H. discriminate.
Qed.

Lemma dict_get_month_name lang :
  1 <= lang <= 2 ->
  exists names, dict_get month_name lang = Ok names
                /\ List.length names = 12%nat.
Proof.
  intros H. assert (lang = 1 \/ lang = 2) as [-> | ->] by lia;
    eexists; split; reflexivity.
Qed.

Lemma py_getitem_in_bounds {A : Type} (t : list A) i :
  0 <= i < Z.of_nat (List.length t) ->
  exists a, py_getitem t i = Ok a /\ nth_error t (Z.to_nat i) = Some a.
Proof.
  intros H. unfold py_getitem.
  replace (i <? 0) with false by (symmetry; apply Z.ltb_ge; lia).
  replace ((0 <=? i) && (i <? Z.of_nat (List.length t))) with true
    by (symmetry; apply andb_true_iff; split;
        [apply Z.leb_le | apply Z.ltb_lt]; lia).
  destruct (nth_error t (Z.to_nat i)) as [a|] eqn:E; [eauto|].
  apply nth_error_None in E. lia.
Qed.

(** For a date the constructor has built, [format] returns a string for
    the languages 0, 1 and 2 (the month always has a name in the table)
    and raises its [ValueError] for every other integer. *)
Theorem format_outcome y m d h lang :
  HijriDate_init y m d = Ok h ->
  match format h lang with
  | Ok s =>
      0 <= lang <= 2
      /\ (lang <> 0 ->
          exists names name,
            dict_get month_name lang = Ok names
            /\ nth_error names (Z.to_nat (m - 1)) = Some name
            /\ s = py_str d ++ " " ++ name ++ " " ++ py_str y)
  | Raise e =>
      ~ 0 <= lang <= 2 /\ e = ValueError "lang should be bitween 0 and 2"
  end.
Proof.
  intros Hh.
  pose proof (proj1 (HijriDate_init_ok_iff y m d)) as Hok.
  rewrite Hh in Hok. specialize (Hok eq_refl). destruct Hok as [Hy Hm].
  apply HijriDate_init_stores in Hh as (Ey & Em & Ed & _).
  unfold format.
  destruct (in_range lang 0 3) eqn:Hl; cbn [negb].
  - apply in_range_spec in Hl.
    destruct (lang =? 0) eqn:E0.
    + apply Z.eqb_eq in E0. split; [lia|]. intros Hn. contradiction.
    + apply Z.eqb_neq in E0.
      destruct (dict_get_month_name lang ltac:(lia)) as (names & Hn & Hlen).
      rewrite Hn. cbn [bind]. rewrite Em.
      destruct (py_getitem_in_bounds names (m - 1) ltac:(lia))
        as (name & Hg & Hnth).
      rewrite Hg. cbn [bind]. split; [lia|]. intros _.
      exists names, name. rewrite Ed, Ey. auto.
  - split; [|reflexivity]. intros H.
    assert (in_range lang 0 3 = true) by (apply in_range_spec; lia).
    congruence.
Qed.

Lemma format_outcome_witness :
  HijriDate_init 1444 9 1
  = Ok (mkHijriDate 1444 9 1 (hijri_to_julian 1444 9 1))
  /\ match format (mkHijriDate 1444 9 1 (hijri_to_julian 1444 9 1)) 2 with
     | Ok s =>
         0 <= 2 <= 2
         /\ (2 <> 0 ->
             exists names name,
               dict_get month_name 2 = Ok names
               /\ nth_error names (Z.to_nat (9 - 1)) = Some name
               /\ s = py_str 1 ++ " " ++ name ++ " " ++ py_str 1444)
     | Raise e =>
         ~ 0 <= 2 <= 2 /\ e = ValueError "lang should be bitween 0 and 2"
     end.
Proof.
  split; [reflexivity|].
  exact (format_outcome 1444 9 1
           (mkHijriDate 1444 9 1 (hijri_to_julian 1444 9 1)) 2 eq_refl).
Defined.

(** Strings: the part of a concatenation. *)
Lemma substring_app_l a b :
  substring 0 (String.length a) (a ++ b) = a.
Proof.
  induction a as [|c a IH]; cbn.
  - destruct b; reflexivity.
  - now rewrite IH.
Qed.

Lemma substring_full a : substring 0 (String.length a) a = a.
Proof. induction a as [|c a IH]; cbn; [reflexivity | now rewrite IH]. Qed.

Lemma substring_app_skip a b n k :
  substring (String.length a + n) k (a ++ b) = substring n k b.
Proof. induction a as [|c a IH]; cbn; [reflexivity | exact IH]. Qed.

Lemma length_append a b :
  String.length (a ++ b) = (String.length a + String.length b)%nat.
Proof. induction a as [|c a IH]; cbn; [reflexivity | now rewrite IH]. Qed.

Lemma pads_back_2 : forallb (pads_back 2) (Z_range 0 100) = true.
Proof. vm_compute. reflexivity. Qed.

Lemma pads_back_4 :
  forallb (pads_back 4) (Z_range 0 (Z.to_nat 10000)) = true.
Proof. vm_compute. reflexivity. Qed.

Lemma pads_back_spec width n :
  pads_back width n = true ->
  String.length (py_format_d width n) = width
  /\ digits_value (py_format_d width n) = Some n.
Proof.
  unfold pads_back. intros H. apply andb_true_iff in H as [Hl Hv].
  apply Nat.eqb_eq in Hl. split; [exact Hl|].
  destruct (digits_value (py_format_d width n)); [|discriminate].
  apply Z.eqb_eq in Hv. now subst.
Qed.

(** The numeric rendering of a constructed date whose day has at most two
    digits and whose year has at most four has the shape dd-mm-yyyy: ten
    characters, from which day, month and year are read back. *)
Theorem format_numeric_reads_back y m d h :
  HijriDate_init y m d = Ok h -> 0 <= d <= 99 -> y <= 9999 ->
  exists s,
    format h 0 = Ok s
    /\ String.length s = 10%nat
    /\ parse_numeric s = (Some d, Some m, Some y).
Proof.
  intros Hh Hd Hy.
  pose proof (proj1 (HijriDate_init_ok_iff y m d)) as Hok.
  rewrite Hh in Hok. specialize (Hok eq_refl). destruct Hok as [Hy0 Hm].
  apply HijriDate_init_stores in Hh as (Ey & Em & Ed & _).
  unfold format. cbn [in_range Z.leb Z.ltb Z.compare andb negb Z.eqb].
  rewrite Ey, Em, Ed.
  pose proof pads_back_2 as H2. rewrite forallb_forall in H2.
  pose proof pads_back_4 as H4. rewrite forallb_forall in H4.
  destruct (pads_back_spec 2 d (H2 d ltac:(apply in_Z_range; simpl; lia)))
    as [Ld Vd].
  destruct (pads_back_spec 2 m (H2 m ltac:(apply in_Z_range; simpl; lia)))
    as [Lm Vm].
  destruct (pads_back_spec 4 y (H4 y ltac:(apply in_Z_range; lia)))
    as [Ly Vy].
  set (sd := py_format_d 2 d) in *. set (sm := py_format_d 2 m) in *.
  set (sy := py_format_d 4 y) in *.
  eexists. split; [reflexivity|]. split.
  - rewrite !length_append, Ld, Lm, Ly. reflexivity.
  - unfold parse_numeric.
    assert (E1 : substring 0 2 (sd ++ "-" ++ sm ++ "-" ++ sy) = sd).
    { rewrite <- Ld at 1. apply substring_app_l. }
    assert (E2 : substring 3 2 (sd ++ "-" ++ sm ++ "-" ++ sy) = sm).
    { change 3%nat with (2 + 1)%nat. rewrite <- Ld at 1.
      rewrite substring_app_skip. cbn [append substring].
      rewrite <- Lm at 1. apply substring_app_l. }
    assert (E3 : substring 6 4 (sd ++ "-" ++ sm ++ "-" ++ sy) = sy).
    { change 6%nat with (2 + 4)%nat. rewrite <- Ld at 1.
      rewrite substring_app_skip. cbn [append substring].
      change 3%nat with (2 + 1)%nat. rewrite <- Lm at 1.
      rewrite substring_app_skip. cbn [append substring].
      rewrite <- Ly at 1. apply substring_full. }
    rewrite E1, E2, E3, Vd, Vm, Vy. reflexivity.
Qed.

Lemma format_numeric_reads_back_witness :
  (HijriDate_init 1444 9 1
   = Ok (mkHijriDate 1444 9 1 (hijri_to_julian 1444 9 1))
   /\ 0 <= 1 <= 99 /\ 1444 <= 9999)
  /\ exists s,
       format (mkHijriDate 1444 9 1 (hijri_to_julian 1444 9 1)) 0 = Ok s
       /\ String.length s = 10%nat
       /\ parse_numeric s = (Some 1, Some 9, Some 1444).
Proof.
  assert (H : HijriDate_init 1444 9 1
              = Ok (mkHijriDate 1444 9 1 (hijri_to_julian 1444 9 1))
              /\ 0 <= 1 <= 99 /\ 1444 <= 9999)
    by (split; [reflexivity | lia]).
  split; [exact H|]. destruct H as (Hh & Hd & Hy).
  exact (format_numeric_reads_back 1444 9 1 _ Hh Hd Hy).
Defined.

End HijriMore.

(** ** PrayerConf and the solar computations, in general *)

Section PraytimesMore.

Import Hijri HijriFacts PyFloat Praytimes PraytimesFacts.
Local Open Scope R_scope.

(** An integer selector either picks a method of the registry or raises
    [IndexError]: it raises exactly below -8; from -8 to 0 it picks the
    method of id selector + 9, from 1 to 9 the method of that id, and
    above 9 the method of id 3.  The stored Fajr and Isha parameters are
    those of the method, a numeric angle being raised by 90. *)
Theorem PrayerConf_init_selector lon lat tz n madhab st :
  match PrayerConf_init lon lat tz (RefInt n) madhab st with
  | Ok conf =>
      (-8 <= n)%Z
      /\ exists m,
           In m LIST_FAJR_ISHA_METHODS
           /\ id m = (if n <=? 0 then n + 9 else if n <=? 9 then n else 3)%Z
           /\ fajr_angle conf = shift_angle (mi_fajr_angle m)
           /\ ishaa_angle conf = shift_angle (mi_ishaa_angle m)
  | Raise e => (n < -8)%Z /\ e = IndexError
  end.
Proof.
  destruct (Z_lt_le_dec n (-8)) as [Hlt | Hge].
  - rewrite selector_below by exact Hlt. auto.
  - assert (Hid : selected_id n
                  = Ok (if n <=? 0 then n + 9
                        else if n <=? 9 then n else 3)%Z).
    { destruct (Z_le_gt_dec n 9) as [H9 | H9].
      - rewrite selector_in_reach by lia.
        destruct (n <=? 0)%Z eqn:E0; [reflexivity|].
        replace (n <=? 9)%Z with true by (symmetry; apply Z.leb_le; lia).
        reflexivity.
      - unfold selected_id, selector_index.
        replace (n <=? Z.of_nat (List.length LIST_FAJR_ISHA_METHODS))%Z
          with false by (symmetry; apply Z.leb_gt; simpl; lia).
        replace (n <=? 0)%Z with false by (symmetry; apply Z.leb_gt; lia).
        replace (n <=? 9)%Z with false by (symmetry; apply Z.leb_gt; lia).
        reflexivity. }
    unfold selected_id in Hid.
    apply bind_inv in Hid as (m & Hg & [= Hm]).
    unfold PrayerConf_init.
    change (if (n <=? Z.of_nat (List.length LIST_FAJR_ISHA_METHODS))%Z
            then (n - 1)%Z else 2%Z) with (selector_index n).
    rewrite Hg. cbn [bind]. split; [exact Hge|].
    exists m. repeat split; try assumption.
    eapply py_getitem_In, Hg.
Qed.

(** Within 10^7 days of 2000-01-01 the declination of the sun is always
    computed, and it stays within the obliquity of the day, itself below
    28 degrees. *)
Theorem sun_declination_total jd :
  Rabs (jd - J2000) <= 10000000 ->
  exists delta,
    _sun_declination jd = Ok delta
    /\ Rabs delta <= obliquity jd /\ obliquity jd < 28.
Proof.
  intros Hjd. pose proof (obliquity_range jd Hjd) as Ho.
  assert (Ho' : 0 < obliquity jd < 90) by lra.
  pose proof (decl_sin_bound jd Ho') as [_ Hx].
  exists (declination jd). split; [now apply sun_declination_ok|].
  split; [|lra].
  pose proof (declination_within_obliquity jd Ho') as Hd.
  pose proof PI_RGT_0 as HPI.
  apply Rabs_le_between in Hd.
  unfold declination. apply Rabs_le.
  assert (Hk : 0 < 180 / PI) by (apply Rdiv_lt_0_compat; lra).
  assert (E : 180 / PI * (obliquity jd * PI / 180) = obliquity jd)
    by (field; lra).
  split.
  - rewrite <- E.
    replace (- (180 / PI * (obliquity jd * PI / 180)))
      with (180 / PI * - (obliquity jd * PI / 180)) by ring.
    apply Rmult_le_compat_l; lra.
  - rewrite <- E. apply Rmult_le_compat_l; lra.
Qed.

Lemma sun_declination_total_witness :
  Rabs (J2000 - J2000) <= 10000000
  /\ exists delta,
       _sun_declination J2000 = Ok delta
       /\ Rabs delta <= obliquity J2000 /\ obliquity J2000 < 28.
Proof.
  assert (H : Rabs (J2000 - J2000) <= 10000000).
  { replace (J2000 - J2000) with 0 by ring. rewrite Rabs_R0. lra. }
  split; [exact H|]. exact (sun_declination_total J2000 H).
Defined.

(** [_get_time_for_angle] on a numeric angle returns exactly when the
    declination is computed, the denominator is not zero and the argument
    [s] is strictly between -1 and 1; the value is then strictly between 0
    and 12 hours.  In every other case it raises a division by zero or a
    math domain error. *)
Theorem time_for_angle_outcome conf jd a :
  match _get_time_for_angle conf jd (Angle a) with
  | Ok t =>
      reached (latitude conf) jd (dcos a)
      /\ t = time_to (latitude conf) jd (dcos a)
      /\ 0 < t < 12
  | Raise e =>
      ~ reached (latitude conf) jd (dcos a) /\ is_arithmetic e = true
  end.
Proof.
  destruct (_get_time_for_angle conf jd (Angle a)) as [t|e] eqn:E.
  - apply time_for_angle_reached in E as [Hr ->].
    split; [exact Hr|]. split; [reflexivity|]. now apply time_to_bounds.
  - split.
    + intros Hr. rewrite (reached_time_to conf jd a Hr) in E. discriminate.
    + destruct (time_for_angle_error (fun r => r) conf jd (Angle a) e E)
        as [H | [msg ->]];
        [exact H|].
      exfalso. revert E. unfold _get_time_for_angle.
      destruct (_sun_declination jd) as [delta|e'] eqn:Ed; cbn [bind dcos_param].
      * unfold py_div at 1. destruct (Req_dec_T _ 0); [discriminate|].
        cbn [bind]. unfold py_sqrt. destruct (Rlt_dec _ 0); [discriminate|].
        cbn [bind]. unfold py_div. destruct (Req_dec_T _ 0); discriminate.
      * intros [= ->]. apply sun_declination_error in Ed. discriminate.
Qed.

(** At a latitude between -90 and 90, of two targets between 0 and 180
    degrees that are both reached, the one further from the zenith is the
    one further from noon. *)
Theorem deeper_target_takes_longer conf jd a b ta tb :
  -90 <= latitude conf <= 90 ->
  0 <= a -> a < b -> b <= 180 ->
  _get_time_for_angle conf jd (Angle a) = Ok ta ->
  _get_time_for_angle conf jd (Angle b) = Ok tb ->
  ta < tb.
Proof.
  intros Hlat Ha Hab Hb Hta Htb.
  apply time_for_angle_reached in Hta as [Ra ->].
  apply time_for_angle_reached in Htb as [Rb ->].
  apply time_to_decreasing; try assumption.
  now apply dcos_decreasing.
Qed.

Lemma deeper_target_takes_longer_witness :
  exists ta tb,
    (-90 <= latitude equator_conf <= 90
     /\ 0 <= 90.83333 /\ 90.83333 < 108 /\ 108 <= 180
     /\ _get_time_for_angle equator_conf J2000 (Angle 90.83333) = Ok ta
     /\ _get_time_for_angle equator_conf J2000 (Angle 108) = Ok tb)
    /\ ta < tb.
Proof.
  assert (Ho : 0 < obliquity J2000 < 90) by (rewrite obliquity_J2000; lra).
  pose proof (reached_time_to equator_conf J2000 90.83333
                (reached_sufficient _ _ _ Ho
                   (equator_reaches equator_conf 90.83333 eq_refl
                      ltac:(lra)))) as Ha.
  pose proof (reached_time_to equator_conf J2000 108
                (reached_sufficient _ _ _ Ho
                   (equator_reaches equator_conf 108 eq_refl
                      ltac:(lra)))) as Hb.
  assert (Hl : -90 <= latitude equator_conf <= 90) by (cbn; lra).
  assert (H0 : 0 <= 90.83333) by lra.
  assert (H1 : 90.83333 < 108) by lra.
  assert (H2 : 108 <= 180) by lra.
  eexists _, _. split.
  - repeat split; first [exact Ha | exact Hb | lra | cbn; lra].
  - exact (deeper_target_takes_longer equator_conf J2000 90.83333 108 _ _
             Hl H0 H1 H2 Ha Hb).
Defined.

End PraytimesMore.

(** ** Prayer: what every constructed object satisfies *)

Section PrayerMore.

Import Hijri HijriFacts PyFloat Praytimes PraytimesFacts PrayerClock.
Local Open Scope R_scope.

Variable equation_of_time : R -> R.
Variable gregorian_to_julian : date -> R.

Local Abbreviation Prayer_init :=
  (Prayer_init equation_of_time gregorian_to_julian).
Local Abbreviation compute_times :=
  (compute_times equation_of_time gregorian_to_julian).

(** Whatever the configuration, in a constructed [Prayer] Fajr and
    sunrise are before Dhuhr, Asr and Maghrib are after it, and the night
    from Maghrib to the Fajr of the next day is cut into three equal parts
    by the second third and the last third, with Midnight strictly between
    them. *)
Theorem constructed_prayer_order conf dat c p :
  Prayer_init conf dat c = Ok p ->
  _fajr_time p < _dohr_time p
  /\ _sherook_time p < _dohr_time p
  /\ _dohr_time p < _asr_time p
  /\ _dohr_time p < _maghreb_time p
  /\ _maghreb_time p < _second_third_of_night p
  /\ _second_third_of_night p < _midnight p
  /\ _midnight p < _last_third_of_night p
  /\ _last_third_of_night p < _fajr_time p + 24
  /\ _second_third_of_night p - _maghreb_time p
     = _last_third_of_night p - _second_third_of_night p
  /\ _last_third_of_night p - _second_third_of_night p
     = _fajr_time p + 24 - _last_third_of_night p.
Proof.
  intros Hp.
  apply Prayer_init_inv in Hp as [_ Hp].
  apply compute_times_inv in Hp
    as (fajr & sherook & asr & maghreb & ishaa
        & Hf & Hs & Ha & Hmg & _ & ->).
  apply fajr_time_inv in Hf as (af & _ & Rf & ->).
  apply sherook_time_inv in Hs as (Rs & ->).
  apply asr_time_inv in Ha as (_ & _ & Ra & ->).
  apply maghreb_time_inv in Hmg as (Rm & ->).
  pose proof (time_to_bounds _ _ _ Rf).
  pose proof (time_to_bounds _ _ _ Rs).
  pose proof (time_to_bounds _ _ _ Ra).
  pose proof (time_to_bounds _ _ _ Rm).
  cbn. unfold _get_midnight, _get_second_third_of_night,
    _get_last_third_of_night.
  repeat split; lra.
Qed.

Lemma PrayerConf_init_angles lon lat tz ref madhab st conf :
  PrayerConf_init lon lat tz ref madhab st = Ok conf ->
  sherook_angle conf = 90.83333 /\ maghreb_angle conf = 90.83333.
Proof.
  unfold PrayerConf_init. intros H.
  apply bind_inv in H as (m & _ & [= <-]). cbn. auto.
Qed.

(** For a configuration built by [PrayerConf], Dhuhr is 12 plus the
    timezone less a fifteenth of the longitude plus the equation of time in
    hours, and it is exactly midway between sunrise and Maghrib; when the
    Fajr and Isha angles are the same number, it is also midway between
    Fajr and Isha. *)
Theorem dhuhr_is_midday lon lat tz ref madhab st conf dat c p :
  PrayerConf_init lon lat tz ref madhab st = Ok conf ->
  Prayer_init conf dat c = Ok p ->
  _dohr_time p
  = 12 + tz - lon / 15 + equation_of_time (gregorian_to_julian dat) / 60
  /\ _dohr_time p - _sherook_time p = _maghreb_time p - _dohr_time p
  /\ (forall a, fajr_angle conf = Angle a -> ishaa_angle conf = Angle a ->
                _dohr_time p - _fajr_time p = _ishaa_time p - _dohr_time p).
Proof.
  intros Hconf Hp.
  pose proof (PrayerConf_init_angles _ _ _ _ _ _ _ Hconf) as [Es Em].
  apply PrayerConf_init_fields in Hconf as (_ & Ed & _).
  apply Prayer_init_inv in Hp as [_ Hp].
  apply compute_times_inv in Hp
    as (fajr & sherook & asr & maghreb & ishaa
        & Hf & Hs & _ & Hmg & Hi & ->).
  apply fajr_time_inv in Hf as (af & Haf & _ & ->).
  apply sherook_time_inv in Hs as (_ & ->).
  apply maghreb_time_inv in Hmg as (_ & ->).
  apply ishaa_time_inv in Hi.
  rewrite Es, Em. cbn. split; [|split].
  - unfold _get_dohr_time. rewrite Ed. field.
  - lra.
  - intros a Ha Hia. rewrite Hia in Hi. destruct Hi as (_ & ->).
    rewrite Haf in Ha. injection Ha as ->. lra.
Qed.

Lemma time_for_angle_same_latitude c1 c2 jd a :
  latitude c1 = latitude c2 ->
  _get_time_for_angle c1 jd a = _get_time_for_angle c2 jd a.
Proof. intros E. unfold _get_time_for_angle. now rewrite E. Qed.

Lemma asr_angle_same c1 c2 jd :
  latitude c1 = latitude c2 -> asr_madhab c1 = asr_madhab c2 ->
  _get_asr_angle c1 jd = _get_asr_angle c2 jd.
Proof. intros E1 E2. unfold _get_asr_angle. now rewrite E1, E2. Qed.

Lemma compute_times_shift c1 c2 dat jd c p1 :
  latitude c1 = latitude c2 ->
  asr_madhab c1 = asr_madhab c2 ->
  sherook_angle c1 = sherook_angle c2 ->
  maghreb_angle c1 = maghreb_angle c2 ->
  fajr_angle c1 = fajr_angle c2 ->
  ishaa_angle c1 = ishaa_angle c2 ->
  compute_times c1 dat jd c = Ok p1 ->
  exists p2,
    compute_times c2 dat jd c = Ok p2
    /\ shifted_by (longitude_difference c2 - longitude_difference c1) p1 p2.
Proof.
  intros El Em Es Emg Ef Ei H.
  assert (T : forall a,
             _get_time_for_angle c2 jd a = _get_time_for_angle c1 jd a).
  { intros a. symmetry. now apply time_for_angle_same_latitude. }
  unfold Praytimes.compute_times in *.
  unfold _get_fajr_time, _get_sherook_time, _get_asr_time,
    _get_maghreb_time, _get_ishaa_time, _get_dohr_time in *.
  rewrite <- Es, <- Emg, <- Ef, <- Ei,
    <- (asr_angle_same c1 c2 jd El Em).
  rewrite ?T.
  destruct (_get_time_for_angle c1 jd (fajr_angle c1)) as [tf|];
    [|discriminate].
  cbn [bind] in *. rewrite ?T.
  destruct (_get_time_for_angle c1 jd (Angle (sherook_angle c1))) as [ts|];
    [|discriminate].
  cbn [bind] in *.
  destruct (_get_asr_angle c1 jd) as [aa|]; [|discriminate].
  cbn [bind] in *. rewrite ?T.
  destruct (_get_time_for_angle c1 jd (Angle aa)) as [ta|];
    [|discriminate].
  cbn [bind] in *. rewrite ?T.
  destruct (_get_time_for_angle c1 jd (Angle (maghreb_angle c1))) as [tm|]
    eqn:Etm; [|discriminate].
  cbn [bind] in *.
  destruct (ishaa_angle c1) as [ai|ft].
  - rewrite ?T.
    destruct (_get_time_for_angle c1 jd (Angle ai)) as [ti|];
      [|discriminate].
    cbn [bind] in *. injection H as <-.
    eexists. split; [reflexivity|].
    unfold shifted_by. cbn. unfold _get_midnight,
      _get_second_third_of_night, _get_last_third_of_night.
    repeat split; lra.
  - destruct (get_hijri gregorian_to_julian dat c) as [h|]; [|discriminate].
    cbn [bind] in *. rewrite ?T, ?Etm in *. cbn [bind] in *.
    injection H as <-.
    eexists. split; [reflexivity|].
    unfold shifted_by. cbn. unfold _get_midnight,
      _get_second_third_of_night, _get_last_third_of_night.
    repeat split; lra.
Qed.

(** Longitude and timezone only move the clock: for the same latitude,
    method and madhab, the prayer times at longitude lon' in the timezone
    tz' are constructed whenever those at lon in tz are, and every value
    is the other one plus (tz' - tz) - (lon' - lon) / 15 hours. *)
Theorem longitude_and_timezone_shift
    lon lon' lat tz tz' ref madhab st c1 c2 dat c p1 :
  PrayerConf_init lon lat tz ref madhab st = Ok c1 ->
  PrayerConf_init lon' lat tz' ref madhab st = Ok c2 ->
  Prayer_init c1 dat c = Ok p1 ->
  exists p2,
    Prayer_init c2 dat c = Ok p2
    /\ shifted_by ((tz' - tz) - (lon' - lon) / 15) p1 p2.
Proof.
  intros H1 H2 Hp.
  unfold PrayerConf_init in H1, H2.
  apply bind_inv in H1 as (m1 & Hm1 & [= <-]).
  apply bind_inv in H2 as (m2 & Hm2 & [= <-]).
  rewrite Hm1 in Hm2. injection Hm2 as <-.
  apply Prayer_init_inv in Hp as [Hc Hp].
  match type of Hp with
  | Praytimes.compute_times _ _ ?c1 _ _ _ = _ =>
      match goal with
      | |- exists p2, Praytimes.Prayer_init _ _ ?c2 _ _ = _ /\ _ =>
          destruct (compute_times_shift c1 c2 _ _ _ _
                      eq_refl eq_refl eq_refl eq_refl eq_refl eq_refl Hp)
            as (p2 & Hp2 & Hs)
      end
  end.
  exists p2. split.
  - unfold Praytimes.Prayer_init. rewrite Hc. cbn [negb]. exact Hp2.
  - cbn [longitude_difference] in Hs.
    replace (tz' - tz - (lon' - lon) / 15)
      with ((tz' * 15 - lon') / 15 - (tz * 15 - lon) / 15) by field.
    exact Hs.
Qed.

(** The errors a construction can end in: the exception of the correction
    value, one of the two arithmetic errors, a [TypeError] or a
    [ValueError]; in particular never an [IndexError]. *)
Theorem Prayer_init_errors conf dat c e :
  Prayer_init conf dat c = Raise e ->
  e = PlainException "Correction value exception"
  \/ is_arithmetic e = true
  \/ (exists msg, e = TypeError msg)
  \/ (exists msg, e = ValueError msg).
Proof.
  unfold Praytimes.Prayer_init.
  destruct (float_in_range c (-2) 5); cbn [negb].
  - intros H. right. now apply compute_times_error in H.
  - intros [= <-]. now left.
Qed.


End PrayerMore.

(** ** Prayer: the wall-clock accessors *)

Section ClockMore.

Import PyFloat Praytimes PrayerClock.
Local Open Scope R_scope.












End ClockMore.

(** ** Qiblah: the bearing in general *)

Section QiblahMore.

Import PyFloat Qiblah QiblahFacts PrayerClock.
Local Open Scope R_scope.


Lemma dsin_opp d : dsin (- d) = - dsin d.
Proof.
  unfold dsin. replace (- d * PI / 180) with (- (d * PI / 180)) by lra.
  apply sin_neg.
Qed.

Lemma dcos_opp d : dcos (- d) = dcos d.
Proof.
  unfold dcos. replace (- d * PI / 180) with (- (d * PI / 180)) by lra.
  apply cos_neg.
Qed.

Lemma dsin_minus a b : dsin (a - b) = dsin a * dcos b - dcos a * dsin b.
Proof.
  unfold dsin, dcos.
  replace ((a - b) * PI / 180) with (a * PI / 180 - b * PI / 180) by lra.
  apply sin_minus.
Qed.

Lemma dsin_pos d : 0 < d < 180 -> 0 < dsin d.
Proof.
  intros H. unfold dsin. pose proof PI_RGT_0.
  apply sin_gt_0; nra.
Qed.

(** On the meridian of the reference point the bearing is due south (180)
    from the north of it and due north (0) from the south of it. *)
Theorem bearing_on_the_meridian lat :
  -90 <= lat <= 90 ->
  lat <> MAKKAH_LATI ->
  exists q,
    Qiblah_init (mkLocation MAKKAH_LONG lat) = Ok q
    /\ direction q = if Rltb MAKKAH_LATI lat then 180 else 0.
Proof.
  intros Hlat Hne.
  set (conf := mkLocation MAKKAH_LONG lat).
  assert (Hn : num conf = 0).
  { unfold num, conf. cbn [longitude].
    replace (MAKKAH_LONG - MAKKAH_LONG) with 0 by ring.
    rewrite dsin_0. ring. }
  assert (Hd : denom conf = dsin (MAKKAH_LATI - lat)).
  { unfold denom, conf. cbn [longitude latitude].
    replace (MAKKAH_LONG - MAKKAH_LONG) with 0 by ring.
    rewrite dcos_0, dsin_minus. ring. }
  assert (Hsign : if Rltb MAKKAH_LATI lat then denom conf < 0
                  else 0 < denom conf).
  { rewrite Hd. destruct (Rltb MAKKAH_LATI lat) eqn:E.
    - apply Rltb_true in E.
      replace (MAKKAH_LATI - lat) with (- (lat - MAKKAH_LATI)) by ring.
      rewrite dsin_opp.
      assert (0 < dsin (lat - MAKKAH_LATI)).
      { apply dsin_pos. unfold MAKKAH_LATI in *. lra. }
      lra.
    - apply Rltb_false in E. apply dsin_pos. unfold MAKKAH_LATI in *. lra. }
  assert (Hnz : denom conf <> 0)
    by (destruct (Rltb MAKKAH_LATI lat); lra).
  destruct (Qiblah_init_nonzero _ Hnz) as (q & Hq & Hdir & _).
  exists q. split; [exact Hq|]. rewrite Hdir, Hn.
  replace (0 / denom conf) with 0 by (field; exact Hnz).
  rewrite atan_0.
  destruct (Rltb MAKKAH_LATI lat).
  - replace (Rltb (denom conf) 0) with true
      by (symmetry; apply Rltb_true; lra). ring.
  - replace (Rltb (denom conf) 0) with false
      by (symmetry; apply Rltb_false; lra).
    replace (Rltb 0 0) with false by (symmetry; apply Rltb_false; lra).
    ring.
Qed.

(** Two observers at the same latitude, as far east as west of the
    meridian of the reference point, get mirrored bearings: the second is
    360 less the first, or 0 when the first is 0; and when the constructor
    raises for one it raises the same error for the other. *)
Theorem mirrored_bearings d lat :
  match Qiblah_init (mkLocation (MAKKAH_LONG + d) lat) with
  | Ok q =>
      exists q',
        Qiblah_init (mkLocation (MAKKAH_LONG - d) lat) = Ok q'
        /\ direction q'
           = if Reqb (direction q) 0 then 0 else 360 - direction q
  | Raise e => Qiblah_init (mkLocation (MAKKAH_LONG - d) lat) = Raise e
  end.
Proof.
  set (c1 := mkLocation (MAKKAH_LONG + d) lat).
  set (c2 := mkLocation (MAKKAH_LONG - d) lat).
  assert (En : num c2 = - num c1).
  { unfold num, c1, c2. cbn [longitude].
    replace (MAKKAH_LONG - (MAKKAH_LONG + d)) with (- d) by ring.
    replace (MAKKAH_LONG - (MAKKAH_LONG - d)) with d by ring.
    rewrite dsin_opp. ring. }
  assert (Ed : denom c2 = denom c1).
  { unfold denom, c1, c2. cbn [longitude latitude].
    replace (MAKKAH_LONG - (MAKKAH_LONG + d)) with (- d) by ring.
    replace (MAKKAH_LONG - (MAKKAH_LONG - d)) with d by ring.
    rewrite dcos_opp. reflexivity. }
  destruct (Req_dec_T (denom c1) 0) as [Hz | Hnz].
  { rewrite (Qiblah_init_zero c1 Hz).
    apply Qiblah_init_zero. now rewrite Ed. }
  destruct (Qiblah_init_nonzero c1 Hnz) as (q & Hq & Hdir & _).
  assert (Hnz2 : denom c2 <> 0) by now rewrite Ed.
  destruct (Qiblah_init_nonzero c2 Hnz2) as (q' & Hq' & Hdir' & _).
  rewrite Hq. exists q'. split; [exact Hq'|].
  rewrite Hdir', Hdir, En, Ed.
  replace (- num c1 / denom c1) with (- (num c1 / denom c1))
    by (field; exact Hnz).
  rewrite atan_opp.
  pose proof (atan_degrees_bound (num c1 / denom c1)) as Hb.
  pose proof PI_RGT_0 as HPI.
  assert (Hk : 0 < 180 / PI) by (apply Rdiv_lt_0_compat; lra).
  set (q0 := num c1 / denom c1) in *.
  assert (Eneq : forall x, x <> 0 -> Reqb x 0 = false).
  { intros x Hx. destruct (Reqb x 0) eqn:E; [|reflexivity].
    apply Reqb_true in E. contradiction. }
  destruct (Rltb (denom c1) 0) eqn:Hneg.
  - rewrite Eneq by lra. ring.
  - apply Rltb_false in Hneg.
    assert (Hpos : 0 < denom c1) by lra.
    pose proof (Rinv_0_lt_compat _ Hpos) as Hinv.
    destruct (Rltb (num c1) 0) eqn:Hn.
    + apply Rltb_true in Hn.
      replace (Rltb (- num c1) 0) with false
        by (symmetry; apply Rltb_false; lra).
      assert (Hq0 : q0 < 0) by (unfold q0, Rdiv; nra).
      pose proof (atan_neg _ Hq0).
      rewrite Eneq by nra. ring.
    + apply Rltb_false in Hn. destruct Hn as [Hn | Hn].
      * replace (Rltb (- num c1) 0) with true
          by (symmetry; apply Rltb_true; lra).
        assert (Hq0 : 0 < q0) by (unfold q0, Rdiv; nra).
        assert (0 < atan q0)
          by (rewrite <- atan_0; now apply atan_increasing).
        rewrite Eneq by nra. ring.
      * replace (Rltb (- num c1) 0) with false
          by (symmetry; apply Rltb_false; lra).
        assert (Hq0 : q0 = 0) by (unfold q0; rewrite <- Hn; field; lra).
        rewrite Hq0, atan_0.
        replace (Reqb (180 / PI * 0 + 0) 0) with true
          by (symmetry; apply Reqb_true; ring).
        ring.
Qed.



End QiblahMore.

(** ** Closed instances of the general statements *)

Section MoreInstances.

Import Hijri PyFloat Praytimes PraytimesFacts PrayerClock Qiblah.
Local Open Scope R_scope.

Local Abbreviation Prayer_init_2000 :=
  (fun conf c =>
     Prayer_init sample_equation_of_time sample_gregorian_to_julian
       conf new_year_2000 c).

Lemma constructed_prayer_order_witness :
  exists p,
    Prayer_init_2000 equator_conf 0 = Ok p
    /\ (_fajr_time p < _dohr_time p
        /\ _sherook_time p < _dohr_time p
        /\ _dohr_time p < _asr_time p
        /\ _dohr_time p < _maghreb_time p
        /\ _maghreb_time p < _second_third_of_night p
        /\ _second_third_of_night p < _midnight p
        /\ _midnight p < _last_third_of_night p
        /\ _last_third_of_night p < _fajr_time p + 24
        /\ _second_third_of_night p - _maghreb_time p
           = _last_third_of_night p - _second_third_of_night p
        /\ _last_third_of_night p - _second_third_of_night p
           = _fajr_time p + 24 - _last_third_of_night p).
Proof.
  destruct (equator_constructed sample_equation_of_time
              sample_gregorian_to_julian new_year_2000 sample_J2000
              2 1 equator_conf eq_refl) as [p Hp].
  exists p. split; [exact Hp|].
  exact (constructed_prayer_order sample_equation_of_time
           sample_gregorian_to_julian equator_conf new_year_2000 0 p Hp).
Defined.

Lemma dhuhr_is_midday_witness :
  exists p,
    (PrayerConf_init 0 0 0 (RefInt 2) 1 false = Ok equator_conf
     /\ Prayer_init_2000 equator_conf 0 = Ok p)
    /\ (_dohr_time p
        = 12 + 0 - 0 / 15
          + sample_equation_of_time
              (sample_gregorian_to_julian new_year_2000) / 60
        /\ _dohr_time p - _sherook_time p = _maghreb_time p - _dohr_time p
        /\ (forall a,
              fajr_angle equator_conf = Angle a ->
              ishaa_angle equator_conf = Angle a ->
              _dohr_time p - _fajr_time p = _ishaa_time p - _dohr_time p)).
Proof.
  destruct (equator_constructed sample_equation_of_time
              sample_gregorian_to_julian new_year_2000 sample_J2000
              2 1 equator_conf eq_refl) as [p Hp].
  exists p. split; [split; [reflexivity | exact Hp]|].
  exact (dhuhr_is_midday sample_equation_of_time sample_gregorian_to_julian
           0 0 0 (RefInt 2) 1 false equator_conf new_year_2000 0 p
           eq_refl Hp).
Defined.

Lemma longitude_and_timezone_shift_witness :
  exists c2 p1,
    (PrayerConf_init 0 0 0 (RefInt 2) 1 false = Ok equator_conf
     /\ PrayerConf_init 30 0 3 (RefInt 2) 1 false = Ok c2
     /\ Prayer_init_2000 equator_conf 0 = Ok p1)
    /\ exists p2,
         Prayer_init_2000 c2 0 = Ok p2
         /\ shifted_by ((3 - 0) - (30 - 0) / 15) p1 p2.
Proof.
  destruct (PrayerConf_init 30 0 3 (RefInt 2) 1 false) as [c2|] eqn:H2;
    [|discriminate].
  destruct (equator_constructed sample_equation_of_time
              sample_gregorian_to_julian new_year_2000 sample_J2000
              2 1 equator_conf eq_refl) as [p1 Hp1].
  exists c2, p1. split; [split; [reflexivity | split; [reflexivity | exact Hp1]]|].
  exact (longitude_and_timezone_shift sample_equation_of_time
           sample_gregorian_to_julian 0 30 0 0 3 (RefInt 2) 1 false
           equator_conf c2 new_year_2000 0 p1 eq_refl H2 Hp1).
Defined.

Lemma Prayer_init_errors_witness :
  exists conf,
    Prayer_init_2000 conf 0 = Raise MathDomainError
    /\ (MathDomainError = PlainException "Correction value exception"
        \/ is_arithmetic MathDomainError = true
        \/ (exists msg, MathDomainError = TypeError msg)
        \/ (exists msg, MathDomainError = ValueError msg)).
Proof.
  destruct (far_south_raises sample_equation_of_time
              sample_gregorian_to_julian new_year_2000 sample_J2000 0 0)
    as (conf & _ & Hp).
  exists conf. split; [exact Hp|].
  exact (Prayer_init_errors sample_equation_of_time
           sample_gregorian_to_julian conf new_year_2000 0 MathDomainError Hp).
Defined.



Lemma bearing_on_the_meridian_witness :
  (-90 <= 0 <= 90 /\ 0 <> MAKKAH_LATI)
  /\ exists q,
       Qiblah_init (mkLocation MAKKAH_LONG 0) = Ok q
       /\ direction q = if Rltb MAKKAH_LATI 0 then 180 else 0.
Proof.
  assert (Hlat : -90 <= 0 <= 90) by lra.
  assert (Hne : 0 <> MAKKAH_LATI) by (unfold MAKKAH_LATI; lra).
  split; [split; [exact Hlat | exact Hne]|].
  exact (bearing_on_the_meridian 0 Hlat Hne).
Defined.


End MoreInstances.

(** ** Prayer: the shadow rule of Asr *)

Section AsrMore.

Import PyFloat Praytimes PraytimesFacts.
Local Open Scope R_scope.

Lemma asr_angle_value conf jd a :
  _get_asr_angle conf jd = Ok a ->
  let X := noon_sin (latitude conf) (declination jd) in
  -1 < decl_sin jd < 1 /\ -1 < X < 1 /\ X <> 0
  /\ a * PI / 180
     = - atan (asr_shadow (latitude conf) (declination jd) (asr_madhab conf)).
Proof.
  unfold _get_asr_angle.
  destruct (_sun_declination jd) as [delta|e] eqn:E; [|discriminate].
  apply sun_declination_inv in E as [Hx ->]. cbn [bind]. cbv zeta.
  fold (noon_sin (latitude conf) (declination jd)).
  set (X := noon_sin (latitude conf) (declination jd)).
  destruct (Rlt_dec (-1) X) as [H1|H1]; [destruct (Rlt_dec X 1) as [H2|H2]|].
  2,3: rewrite sqrt_form_fails by lra; discriminate.
  rewrite sqrt_form_ok by lra.
  rewrite tan_atan. unfold py_div.
  destruct (Req_dec_T (X / sqrt (1 - X²)) 0) as [|Hq]; [discriminate|].
  cbn [bind]. intros [= <-].
  assert (Hw : 0 < sqrt (1 - X²)).
  { apply sqrt_lt_R0. unfold Rsqr. nra. }
  repeat split; try assumption; try lra.
  - intros HX. apply Hq. rewrite HX. unfold Rdiv. ring.
  - unfold asr_shadow. fold X. rewrite tan_asin by lra.
    rewrite atan_1. pose proof PI_RGT_0. field. lra.
Qed.

Lemma noon_sin_cos lat delta :
  noon_sin lat delta = cos (Rabs (lat - delta) * PI / 180).
Proof.
  unfold noon_sin, dsin, dcos.
  assert (E : cos ((lat - delta) * PI / 180)
              = sin (lat * PI / 180) * sin (delta * PI / 180)
                + cos (lat * PI / 180) * cos (delta * PI / 180)).
  { replace ((lat - delta) * PI / 180)
      with (lat * PI / 180 - delta * PI / 180) by lra.
    rewrite cos_minus. ring. }
  rewrite <- E. unfold Rabs. destruct (Rcase_abs (lat - delta)).
  - replace (- (lat - delta) * PI / 180)
      with (- ((lat - delta) * PI / 180)) by lra.
    now rewrite cos_neg.
  - reflexivity.
Qed.

(** The shadow rule of Asr: between the poles, the angle
    [_get_asr_angle] returns is, up to the sign, the distance from the
    zenith at which the shadow of an object is the madhab times its height
    longer than its shadow at noon; the tangent of that distance is the
    madhab plus the tangent of the distance of the sun from the zenith at
    noon, which is the difference of the latitude and the declination. *)
Theorem asr_shadow_rule conf jd a :
  -90 <= latitude conf <= 90 ->
  _get_asr_angle conf jd = Ok a ->
  -90 < a < 90
  /\ tan (- a * PI / 180)
     = IZR (asr_madhab conf)
       + tan (Rabs (latitude conf - declination jd) * PI / 180).
Proof.
  intros Hlat Ha. pose proof PI_RGT_0 as HPI.
  apply asr_angle_value in Ha as (Hx & HX & HX0 & Ea).
  set (x := asr_shadow (latitude conf) (declination jd) (asr_madhab conf))
    in *.
  split.
  - pose proof (atan_bound x) as Hb.
    assert (a = - (180 / PI * atan x)).
    { apply (Rmult_eq_reg_r (PI / 180)); [|lra].
      replace (a * (PI / 180)) with (a * PI / 180) by lra.
      rewrite Ea. field. lra. }
    pose proof (atan_degrees_bound x). lra.
  - replace (- a * PI / 180) with (- (a * PI / 180)) by lra.
    rewrite Ea, Ropp_involutive, tan_atan.
    unfold x, asr_shadow. f_equal.
    rewrite noon_sin_cos in *.
    set (z := Rabs (latitude conf - declination jd) * PI / 180) in *.
    assert (Hz : 0 <= z <= PI).
    { unfold z. pose proof (Rabs_pos (latitude conf - declination jd)).
      assert (Hd : Rabs (declination jd) <= 90).
      { pose proof (asin_bound (decl_sin jd)) as Hb.
        rewrite <- declination_rad in Hb.
        apply Rabs_le. nra. }
      apply Rabs_le_between in Hd.
      assert (Rabs (latitude conf - declination jd) <= 180)
        by (apply Rabs_le; lra).
      split; nra. }
    replace (cos z) with (sin (PI / 2 - z)) in * by apply sin_shift.
    rewrite asin_sin by lra.
    unfold tan. rewrite sin_shift, cos_shift.
    rewrite sin_shift in HX0.
    assert (Hs : sin z <> 0).
    { intros Hs. pose proof (sin2_cos2 z) as E. rewrite Hs in E.
      rewrite sin_shift in HX. unfold Rsqr in E. nra. }
    field. split; assumption.
Qed.

Lemma asr_shadow_rule_witness :
  exists a,
    (-90 <= latitude equator_conf <= 90
     /\ _get_asr_angle equator_conf J2000 = Ok a)
    /\ (-90 < a < 90
        /\ tan (- a * PI / 180)
           = IZR (asr_madhab equator_conf)
             + tan (Rabs (latitude equator_conf - declination J2000)
                    * PI / 180)).
Proof.
  assert (Hl : -90 <= latitude equator_conf <= 90) by (cbn; lra).
  assert (Ho : 0 < obliquity J2000 < 90) by (rewrite obliquity_J2000; lra).
  destruct (asr_sufficient equator_conf J2000 Ho) as [HX _].
  { cbn [latitude equator_conf]. rewrite obliquity_J2000, Rabs_R0. lra. }
  { cbn [latitude equator_conf]. intros E.
    apply declination_J2000_nonzero. now symmetry. }
  { cbn. lia. }
  destruct (asr_angle_ok equator_conf J2000 decl_sin_J2000_range
              ltac:(lra) ltac:(lra)) as (a & Ha & _).
  exists a. split; [split; [exact Hl | exact Ha]|].
  exact (asr_shadow_rule equator_conf J2000 a Hl Ha).
Defined.

End AsrMore.
